(** * WebWaka Agriculture: sync bookkeeping, account lockout, settings cache

    A shallow embedding of the parts of the backend that carry behaviour:

    - [Shared]: [BaseModel] of [backend/app/models/shared.py] with its
      serialisation ([to_dict], [get_sync_data]) and its sync life cycle
      ([mark_for_sync], [mark_synced], [mark_conflict]), for a row of the
      table;
    - [Instances]: the same for an instance as Python holds it, before
      and after the INSERT that applies the column defaults;
    - [UserModel]: the login bookkeeping of [User] in
      [backend/app/models/user.py];
    - [Config]: the memoised [get_settings] of [backend/app/core/config.py];
    - [Database]: [OfflineDatabase] of [backend/app/core/database.py];
    - [Reconciler]: the sync reconciler that the specification designs in its
      section 4.1 and that the repository leaves unimplemented.

    Python objects are records, attribute assignment is a record update,
    [datetime.utcnow()] is an explicit clock argument, dictionaries are
    [gmap string value], and a raised exception is a constructor of
    [outcome]. *)

From stdpp Require Import gmap strings pretty list fin_maps.

Set Warnings "-register-all".
Local Open Scope Z_scope.

(* ===================================================================== *)
(** * Python values and results *)
(* ===================================================================== *)

Module Py.

(** [uuid.UUID] by its 128-bit integer; a naive UTC [datetime] and a
    [date] by their distance from the epoch (microseconds, days). *)
Definition uuid := N.
Definition datetime := Z.
Definition date := Z.

(** The values a column attribute or a JSON document can hold. *)
Inductive value : Type :=
  | VNone
  | VBool (b : bool)
  | VInt (z : Z)
  | VFloat (bits : N)
  | VStr (s : string)
  | VUuid (u : uuid)
  | VDatetime (d : datetime)
  | VDate (d : date)
  | VList (l : list value)
  | VDict (d : gmap string value).

(** The two library formatters the models call: [str(uuid.UUID)] and
    [datetime.isoformat()]. *)
Class Formatters := {
  uuid_str : uuid → string;
  isoformat : datetime → string
}.

(** The hexadecimal digit of a number below 16, lower case. *)
Definition hex_digit (n : N) : Ascii.ascii :=
  default Ascii.zero (String.get (N.to_nat n) "0123456789abcdef").

(** The lowest [digits] hexadecimal digits of [n], the highest first. *)
Fixpoint hex (digits : nat) (n : N) : string :=
  match digits with
  | O => ""
  | S k => hex k (n `div` 16)%N +:+ String (hex_digit (n `mod` 16)%N) ""
  end.

(** [uuid.UUID.__str__]: ['%032x' % self.int], cut into groups of 8, 4,
    4, 4 and 12 digits joined by hyphens. *)
Definition canonical_uuid_str (u : uuid) : string :=
  hex 8 (N.shiftr u 96) +:+ "-" +:+ hex 4 (N.shiftr u 80) +:+ "-"
  +:+ hex 4 (N.shiftr u 64) +:+ "-" +:+ hex 4 (N.shiftr u 48) +:+ "-"
  +:+ hex 12 u.

Inductive exn : Type :=
  | NameError (name : string)
  | ValidationError.

(** What a call does: it returns a value or raises. *)
Inductive outcome (A : Type) : Type :=
  | Return (a : A)
  | Raise (e : exn).
Arguments Return {A} a.
Arguments Raise {A} e.

(** [x if x is not None else None] on optional columns. *)
Definition of_opt {A} (inj : A → value) (o : option A) : value :=
  match o with Some a => inj a | None => VNone end.

End Py.

(* ===================================================================== *)
(** * backend/app/models/shared.py *)
(* ===================================================================== *)

Module Shared.
Import Py.

(** An instance of a concrete subclass of [BaseModel]: the columns of
    [TimestampMixin], [SoftDeleteMixin], [AfricanOptimizationMixin] and
    [BaseModel] itself, typed as their [Column] declarations type them,
    and the columns the subclass adds, by name. *)
Record BaseModel : Type := mkBaseModel {
  id : uuid;
  created_at : datetime;
  updated_at : datetime;
  is_deleted : bool;
  deleted_at : option datetime;
  sync_status : string;
  last_sync_at : option datetime;
  offline_id : option string;
  language_code : string;
  cultural_context : option value;
  mobile_optimized : bool;
  data_residency_country : option string;
  metadata_info : option value;
  own_columns : gmap string value
}.

(** The names of the columns every model inherits. *)
Definition base_column_names : list string :=
  [ "created_at"; "updated_at"; "is_deleted"; "deleted_at"; "sync_status";
    "last_sync_at"; "offline_id"; "language_code"; "cultural_context";
    "mobile_optimized"; "data_residency_country"; "id"; "metadata_info" ]%string.

(** [getattr(self, column.name)] for each inherited column. *)
Definition base_columns (r : BaseModel) : list (string * value) :=
  [ ("created_at", VDatetime (created_at r));
    ("updated_at", VDatetime (updated_at r));
    ("is_deleted", VBool (is_deleted r));
    ("deleted_at", of_opt VDatetime (deleted_at r));
    ("sync_status", VStr (sync_status r));
    ("last_sync_at", of_opt VDatetime (last_sync_at r));
    ("offline_id", of_opt VStr (offline_id r));
    ("language_code", VStr (language_code r));
    ("cultural_context", of_opt (λ v, v) (cultural_context r));
    ("mobile_optimized", VBool (mobile_optimized r));
    ("data_residency_country", of_opt VStr (data_residency_country r));
    ("id", VUuid (id r));
    ("metadata_info", of_opt (λ v, v) (metadata_info r)) ]%string.

(** [self.__table__.columns], each with the attribute's current value. *)
Definition table_columns (r : BaseModel) : list (string * value) :=
  base_columns r ++ map_to_list (own_columns r).

(** [getattr(self, name, None)] for a name that is not an inherited
    column: the subclass column of that name, if the class has one. *)
Definition getattr_or_none (r : BaseModel) (name : string) : value :=
  default VNone (own_columns r !! name).

Section Serialisation.
Context `{Formatters}.

(** The [isinstance] chain in the loop of [to_dict]. A [date] is not a
    [datetime], and nested JSON is left as it is. *)
Definition serialise (v : value) : value :=
  match v with
  | VUuid u => VStr (uuid_str u)
  | VDatetime d => VStr (isoformat d)
  | _ => v
  end.

Definition african_context (r : BaseModel) : gmap string value :=
  <["cultural_context" := of_opt (λ v, v) (cultural_context r)]>
  (<["language_code" := VStr (language_code r)]>
  (<["region" := getattr_or_none r "region"]>
  (<["country_code" := getattr_or_none r "country_code"]> ∅))).

(** [BaseModel.to_dict]: one assignment [result[column.name] = value]
    per column, then the assignment of ["african_context"]. *)
Definition to_dict (r : BaseModel) : gmap string value :=
  let result :=
    foldl (λ res cv, <[cv.1 := serialise cv.2]> res) ∅ (table_columns r) in
  <["african_context" := VDict (african_context r)]> result.

(** [BaseModel.get_sync_data]. A [datetime] is always truthy, so the
    conditional on [last_sync_at] tests for [None]. *)
Definition get_sync_data (r : BaseModel) : gmap string value :=
  <["data" := VDict (to_dict r)]>
  (<["offline_id" := of_opt VStr (offline_id r)]>
  (<["last_sync_at" :=
      match last_sync_at r with
      | Some d => VStr (isoformat d)
      | None => VNone
      end]>
  (<["sync_status" := VStr (sync_status r)]>
  (<["id" := VStr (uuid_str (id r))]> ∅)))).
End Serialisation.

Definition set_sync_status (s : string) (r : BaseModel) : BaseModel :=
  mkBaseModel (id r) (created_at r) (updated_at r) (is_deleted r)
    (deleted_at r) s (last_sync_at r) (offline_id r) (language_code r)
    (cultural_context r) (mobile_optimized r) (data_residency_country r)
    (metadata_info r) (own_columns r).

Definition set_updated_at (t : datetime) (r : BaseModel) : BaseModel :=
  mkBaseModel (id r) (created_at r) t (is_deleted r)
    (deleted_at r) (sync_status r) (last_sync_at r) (offline_id r)
    (language_code r) (cultural_context r) (mobile_optimized r)
    (data_residency_country r) (metadata_info r) (own_columns r).

Definition set_last_sync_at (t : option datetime) (r : BaseModel) : BaseModel :=
  mkBaseModel (id r) (created_at r) (updated_at r) (is_deleted r)
    (deleted_at r) (sync_status r) t (offline_id r)
    (language_code r) (cultural_context r) (mobile_optimized r)
    (data_residency_country r) (metadata_info r) (own_columns r).

(** The three life-cycle methods; [utcnow] is what [datetime.utcnow()]
    returns during the call. *)
Definition mark_for_sync (utcnow : datetime) (r : BaseModel) : BaseModel :=
  set_updated_at utcnow (set_sync_status "pending" r).

Definition mark_synced (utcnow : datetime) (r : BaseModel) : BaseModel :=
  set_last_sync_at (Some utcnow) (set_sync_status "synced" r).

Definition mark_conflict (r : BaseModel) : BaseModel :=
  set_sync_status "conflict" r.

(** A row inserted with none of the inherited columns given: every
    [default=] of the declarations applies, [uuid4] being the result of
    [uuid.uuid4()] and [utcnow], [utcnow'] those of the two calls of
    [datetime.utcnow()]. *)
Definition new_record (uuid4 : uuid) (utcnow utcnow' : datetime)
    (own : gmap string value) : BaseModel :=
  {| id := uuid4;
     created_at := utcnow;
     updated_at := utcnow';
     is_deleted := false;
     deleted_at := None;
     sync_status := "synced";
     last_sync_at := None;
     offline_id := None;
     language_code := "en";
     cultural_context := None;
     mobile_optimized := true;
     data_residency_country := None;
     metadata_info := None;
     own_columns := own |}.

(** The model's own operations on an existing record. *)
Inductive lifecycle_call : Type :=
  | CallMarkForSync (utcnow : datetime)
  | CallMarkSynced (utcnow : datetime)
  | CallMarkConflict.

Definition call (c : lifecycle_call) (r : BaseModel) : BaseModel :=
  match c with
  | CallMarkForSync t => mark_for_sync t r
  | CallMarkSynced t => mark_synced t r
  | CallMarkConflict => mark_conflict r
  end.

(** The values the column comment lists for [sync_status]. *)
Definition sync_status_values : list string :=
  [ "synced"; "pending"; "conflict" ]%string.

End Shared.

(* ===================================================================== *)
(** * backend/app/models/shared.py: an instance before and after its INSERT *)
(* ===================================================================== *)

Module Instances.
Import Py.

(** An instance of a concrete subclass of [BaseModel] as Python holds
    it, saved or not. The constructor of a declarative class assigns the
    keyword arguments it is given and nothing else, and a mapped
    attribute that was never assigned reads [None]: the [default=] of a
    [Column] is applied by the INSERT. So every inherited column is
    optional here, whatever its [nullable]. *)
Record Instance : Type := mkInstance {
  id : option uuid;
  created_at : option datetime;
  updated_at : option datetime;
  is_deleted : option bool;
  deleted_at : option datetime;
  sync_status : option string;
  last_sync_at : option datetime;
  offline_id : option string;
  language_code : option string;
  cultural_context : option value;
  mobile_optimized : option bool;
  data_residency_country : option string;
  metadata_info : option value;
  own_columns : gmap string value
}.

(** The constructor called with keyword arguments for columns of the
    subclass only; [own] has an entry, [None] where nothing was given,
    for each of them. *)
Definition construct (own : gmap string value) : Instance :=
  {| id := None;
     created_at := None;
     updated_at := None;
     is_deleted := None;
     deleted_at := None;
     sync_status := None;
     last_sync_at := None;
     offline_id := None;
     language_code := None;
     cultural_context := None;
     mobile_optimized := None;
     data_residency_country := None;
     metadata_info := None;
     own_columns := own |}.

(** A row of the table, read back as an instance. *)
Definition of_row (r : Shared.BaseModel) : Instance :=
  {| id := Some (Shared.id r);
     created_at := Some (Shared.created_at r);
     updated_at := Some (Shared.updated_at r);
     is_deleted := Some (Shared.is_deleted r);
     deleted_at := Shared.deleted_at r;
     sync_status := Some (Shared.sync_status r);
     last_sync_at := Shared.last_sync_at r;
     offline_id := Shared.offline_id r;
     language_code := Some (Shared.language_code r);
     cultural_context := Shared.cultural_context r;
     mobile_optimized := Some (Shared.mobile_optimized r);
     data_residency_country := Shared.data_residency_country r;
     metadata_info := Shared.metadata_info r;
     own_columns := Shared.own_columns r |}.

(** The [default=] of the subclass's own columns, by column name, put
    where the column is [None]. *)
Definition fill_defaults (defaults own : gmap string value)
    : gmap string value :=
  map_imap
    (λ c v, Some match v with
                 | VNone => default VNone (defaults !! c)
                 | _ => v
                 end) own.

(** The INSERT of the first flush, when it succeeds: a column that has a
    [default=] and whose attribute is [None] gets the default, [uuid4]
    being the result of [uuid.uuid4()] and [utcnow], [utcnow'] those of
    the two calls of [datetime.utcnow()]; the attributes then hold what
    was inserted. *)
Definition insert (uuid4 : uuid) (utcnow utcnow' : datetime)
    (defaults : gmap string value) (i : Instance) : Instance :=
  {| id := Some (default uuid4 (id i));
     created_at := Some (default utcnow (created_at i));
     updated_at := Some (default utcnow' (updated_at i));
     is_deleted := Some (default false (is_deleted i));
     deleted_at := deleted_at i;
     sync_status := Some (default "synced"%string (sync_status i));
     last_sync_at := last_sync_at i;
     offline_id := offline_id i;
     language_code := Some (default "en"%string (language_code i));
     cultural_context := cultural_context i;
     mobile_optimized := Some (default true (mobile_optimized i));
     data_residency_country := data_residency_country i;
     metadata_info := metadata_info i;
     own_columns := fill_defaults defaults (own_columns i) |}.

Definition set_sync_status (s : string) (i : Instance) : Instance :=
  mkInstance (id i) (created_at i) (updated_at i) (is_deleted i)
    (deleted_at i) (Some s) (last_sync_at i) (offline_id i) (language_code i)
    (cultural_context i) (mobile_optimized i) (data_residency_country i)
    (metadata_info i) (own_columns i).

Definition set_updated_at (t : datetime) (i : Instance) : Instance :=
  mkInstance (id i) (created_at i) (Some t) (is_deleted i)
    (deleted_at i) (sync_status i) (last_sync_at i) (offline_id i)
    (language_code i) (cultural_context i) (mobile_optimized i)
    (data_residency_country i) (metadata_info i) (own_columns i).

Definition set_last_sync_at (t : datetime) (i : Instance) : Instance :=
  mkInstance (id i) (created_at i) (updated_at i) (is_deleted i)
    (deleted_at i) (sync_status i) (Some t) (offline_id i)
    (language_code i) (cultural_context i) (mobile_optimized i)
    (data_residency_country i) (metadata_info i) (own_columns i).

(** The three life-cycle methods, which do not ask whether the instance
    was ever saved. *)
Definition mark_for_sync (utcnow : datetime) (i : Instance) : Instance :=
  set_updated_at utcnow (set_sync_status "pending" i).

Definition mark_synced (utcnow : datetime) (i : Instance) : Instance :=
  set_last_sync_at utcnow (set_sync_status "synced" i).

Definition mark_conflict (i : Instance) : Instance :=
  set_sync_status "conflict" i.

Definition call (c : Shared.lifecycle_call) (i : Instance) : Instance :=
  match c with
  | Shared.CallMarkForSync t => mark_for_sync t i
  | Shared.CallMarkSynced t => mark_synced t i
  | Shared.CallMarkConflict => mark_conflict i
  end.

(** The instances a program can come to hold as long as nothing but the
    model itself assigns [sync_status], each with whether it has been
    inserted: a constructor call without that keyword, with any values
    for the other columns; a life-cycle call; anything that leaves
    [sync_status] alone, such as an assignment to another attribute or
    the UPDATE that refreshes [updated_at] ([onupdate]); and the
    INSERT. *)
Inductive reachable : bool → Instance → Prop :=
  | reachable_construct i :
      sync_status i = None → reachable false i
  | reachable_call inserted c i :
      reachable inserted i → reachable inserted (call c i)
  | reachable_other inserted i i' :
      reachable inserted i → sync_status i' = sync_status i →
      reachable inserted i'
  | reachable_insert uuid4 utcnow utcnow' defaults i :
      reachable false i →
      reachable true (insert uuid4 utcnow utcnow' defaults i).

(** [getattr(self, column.name)] for each inherited column. *)
Definition base_columns (i : Instance) : list (string * value) :=
  [ ("created_at", of_opt VDatetime (created_at i));
    ("updated_at", of_opt VDatetime (updated_at i));
    ("is_deleted", of_opt VBool (is_deleted i));
    ("deleted_at", of_opt VDatetime (deleted_at i));
    ("sync_status", of_opt VStr (sync_status i));
    ("last_sync_at", of_opt VDatetime (last_sync_at i));
    ("offline_id", of_opt VStr (offline_id i));
    ("language_code", of_opt VStr (language_code i));
    ("cultural_context", of_opt (λ v, v) (cultural_context i));
    ("mobile_optimized", of_opt VBool (mobile_optimized i));
    ("data_residency_country", of_opt VStr (data_residency_country i));
    ("id", of_opt VUuid (id i));
    ("metadata_info", of_opt (λ v, v) (metadata_info i)) ]%string.

(** [self.__table__.columns], each with the attribute's current value. *)
Definition table_columns (i : Instance) : list (string * value) :=
  base_columns i ++ map_to_list (own_columns i).

(** [getattr(self, name, None)] for a name that is not an inherited
    column. *)
Definition getattr_or_none (i : Instance) (name : string) : value :=
  default VNone (own_columns i !! name).

Section Serialisation.
Context `{Formatters}.

Definition african_context (i : Instance) : gmap string value :=
  <["cultural_context" := of_opt (λ v, v) (cultural_context i)]>
  (<["language_code" := of_opt VStr (language_code i)]>
  (<["region" := getattr_or_none i "region"]>
  (<["country_code" := getattr_or_none i "country_code"]> ∅))).

(** [BaseModel.to_dict]: one assignment [result[column.name] = value]
    per column, then the assignment of ["african_context"]. *)
Definition to_dict (i : Instance) : gmap string value :=
  let result :=
    foldl (λ res cv, <[cv.1 := Shared.serialise cv.2]> res) ∅
      (table_columns i) in
  <["african_context" := VDict (african_context i)]> result.

(** [BaseModel.get_sync_data]. [str(self.id)] of an [id] that is still
    [None] is the string "None"; a [datetime] is always truthy, so the
    conditional on [last_sync_at] tests for [None]. *)
Definition get_sync_data (i : Instance) : gmap string value :=
  <["data" := VDict (to_dict i)]>
  (<["offline_id" := of_opt VStr (offline_id i)]>
  (<["last_sync_at" :=
      match last_sync_at i with
      | Some d => VStr (isoformat d)
      | None => VNone
      end]>
  (<["sync_status" := of_opt VStr (sync_status i)]>
  (<["id" := VStr match id i with
                  | Some u => uuid_str u
                  | None => "None"
                  end]> ∅)))).
End Serialisation.

End Instances.

(* ===================================================================== *)
(** * backend/app/models/user.py *)
(* ===================================================================== *)

Module UserModel.
Import Py.

(** The login bookkeeping columns of [User], on top of the inherited
    ones. Python integers are unbounded. *)
Record User : Type := mkUser {
  base : Shared.BaseModel;
  last_login : option datetime;
  login_count : Z;
  failed_login_attempts : Z;
  account_locked_until : option datetime
}.

(** Every name that the module binds at its top level: the imports of
    lines 18 to 31, the three association tables, [pwd_context], the
    eight model classes and [__all__]. *)
Definition module_names : list string :=
  [ "uuid"; "datetime"; "date"; "Optional"; "List"; "Dict"; "Any";
    "Column"; "String"; "Boolean"; "DateTime"; "Date"; "Text"; "JSON";
    "Integer"; "Float"; "ForeignKey"; "Table"; "UniqueConstraint"; "Index";
    "UUID"; "relationship"; "backref"; "hybrid_property"; "CryptContext";
    "BaseModel"; "GeospatialMixin"; "MultiLanguageMixin"; "Base";
    "pwd_context"; "user_roles"; "user_communities"; "user_cooperatives";
    "User"; "UserProfile"; "UserRole"; "UserPermission"; "Community";
    "Cooperative"; "ExtensionAgent"; "GovernmentOfficial"; "__all__" ]%string.

(** Loading a global name inside a method of the module. None of the
    names the methods below load is a builtin, so a name the module does
    not bind raises [NameError]. *)
Definition load_global (name : string) : outcome unit :=
  if bool_decide (name ∈ module_names) then Return tt
  else Raise (NameError name).

(** [timedelta(minutes=m)] in microseconds. *)
Definition timedelta_minutes (m : Z) : Z := m * 60 * 1000000.

Definition set_failed_login_attempts (n : Z) (u : User) : User :=
  mkUser (base u) (last_login u) (login_count u) n (account_locked_until u).

Definition set_account_locked_until (t : option datetime) (u : User) : User :=
  mkUser (base u) (last_login u) (login_count u) (failed_login_attempts u) t.

(** [User.update_login_info]. *)
Definition update_login_info (utcnow : datetime) (u : User) : User :=
  mkUser (base u) (Some utcnow) (login_count u + 1) 0 (account_locked_until u).

(** [User.increment_failed_login]: the user after the call and how the
    call ended. The increment is done before the right-hand side of the
    second assignment is evaluated, so it survives an exception raised
    there. In [datetime.utcnow() + timedelta(minutes=30)] the name
    [datetime] is loaded first, then [timedelta]. *)
Definition increment_failed_login (utcnow : datetime) (u : User)
    : User * outcome unit :=
  let u1 := set_failed_login_attempts (failed_login_attempts u + 1) u in
  if 5 <=? failed_login_attempts u1 then
    match load_global "datetime" with
    | Raise e => (u1, Raise e)
    | Return _ =>
        match load_global "timedelta" with
        | Raise e => (u1, Raise e)
        | Return _ =>
            (set_account_locked_until
               (Some (utcnow + timedelta_minutes 30)) u1, Return tt)
        end
    end
  else (u1, Return tt).

(** [User.is_account_locked]; a [datetime] is truthy, [None] is not. *)
Definition is_account_locked (utcnow : datetime) (u : User) : bool :=
  match account_locked_until u with
  | Some deadline => bool_decide (utcnow < deadline)
  | None => false
  end.

(** A persisted user with a given counter and lock time. *)
Definition sample_user (failed : Z) (locked : option datetime) : User :=
  mkUser (Shared.new_record 42%N 0 0 ∅) None 0 failed locked.

End UserModel.

(* ===================================================================== *)
(** * backend/app/core/config.py *)
(* ===================================================================== *)

Module Config.
Import Py.

Inductive settings_class : Type :=
  | DevelopmentSettings
  | ProductionSettings
  | TestingSettings.

(** A reference to a [Settings] object: its position in the heap. Two
    references are the same object exactly when they are equal. *)
Definition ref := nat.

(** The part of the interpreter state [get_settings] touches:
    [os.environ], the objects built so far, the single entry of the
    [lru_cache] of a function without arguments, and the module
    attribute [settings]. *)
Record process : Type := mkProcess {
  environ : gmap string string;
  heap : list settings_class;
  cache : option ref;
  settings : option ref
}.

Definition ascii_lower (c : Ascii.ascii) : Ascii.ascii :=
  let n := Ascii.N_of_ascii c in
  if ((65 <=? n) && (n <=? 90))%N then Ascii.ascii_of_N (n + 32) else c.

(** [str.lower] on ASCII text. *)
Fixpoint lower (s : string) : string :=
  match s with
  | EmptyString => EmptyString
  | String c s' => String (ascii_lower c) (lower s')
  end.

(** The branch of [get_settings] on the lowered [ENVIRONMENT]. *)
Definition select_class (p : process) : settings_class :=
  let environment := lower (default "development"%string (environ p !! "ENVIRONMENT"%string)) in
  if String.eqb environment "production" then ProductionSettings
  else if String.eqb environment "testing" then TestingSettings
  else DevelopmentSettings.

Section GetSettings.
(** Whether pydantic accepts the environment for a class (the required
    [SECRET_KEY] and [DATABASE_URL], the parsing of typed fields). *)
Variable validates : settings_class → gmap string string → bool.

(** The undecorated body of [get_settings]: a new object or a
    validation error. *)
Definition get_settings_body (p : process) : process * outcome ref :=
  let cls := select_class p in
  if validates cls (environ p) then
    (mkProcess (environ p) (heap p ++ [cls]) (cache p) (settings p),
     Return (length (heap p)))
  else (p, Raise ValidationError).

(** [get_settings] under [@lru_cache()]: a hit returns the cached
    object; a miss runs the body and stores what it returns; an
    exception is not cached. *)
Definition get_settings (p : process) : process * outcome ref :=
  match cache p with
  | Some o => (p, Return o)
  | None =>
      match get_settings_body p with
      | (p', Return o) =>
          (mkProcess (environ p') (heap p') (Some o) (settings p'), Return o)
      | (p', Raise e) => (p', Raise e)
      end
  end.

(** The module-level statement [settings = get_settings()]. *)
Definition bind_settings (p : process) : process * outcome unit :=
  match get_settings p with
  | (p', Return o) =>
      (mkProcess (environ p') (heap p') (cache p') (Some o), Return tt)
  | (p', Raise e) => (p', Raise e)
  end.

(** What the rest of the process can do that matters here: change the
    environment, or call [get_settings]. *)
Inductive action : Type :=
  | Putenv (key val : string)
  | Unsetenv (key : string)
  | CallGetSettings.

Definition set_environ (e : gmap string string) (p : process) : process :=
  mkProcess e (heap p) (cache p) (settings p).

(** Runs the actions in order and collects the result of each call. *)
Fixpoint run (acts : list action) (p : process)
    : process * list (outcome ref) :=
  match acts with
  | [] => (p, [])
  | Putenv k v :: rest => run rest (set_environ (<[k := v]> (environ p)) p)
  | Unsetenv k :: rest => run rest (set_environ (delete k (environ p)) p)
  | CallGetSettings :: rest =>
      let '(p', o) := get_settings p in
      let '(p'', os) := run rest p' in
      (p'', o :: os)
  end.
End GetSettings.

End Config.

(* ===================================================================== *)
(** * backend/app/core/database.py *)
(* ===================================================================== *)

Module Database.
Import Py.

(** A row of [sync_logs] ([SyncLog] of shared.py), by its scalar
    columns. *)
Record SyncLogRow : Type := mkSyncLogRow {
  log_user_id : uuid;
  operation_type : string;
  status : string;
  records_affected : Z;
  conflicts_count : Z
}.

(** What a database call would touch: the rows of the user's offline
    SQLite file and of the online database, the sync log, and the
    statements issued so far (reads included). *)
Record stores : Type := mkStores {
  offline_rows : gmap uuid Shared.BaseModel;
  online_rows : gmap uuid Shared.BaseModel;
  sync_logs : list SyncLogRow;
  statements : list string
}.

(** The two attributes [OfflineDatabase.__init__] sets to [None]. *)
Record OfflineDatabase : Type := mkOfflineDatabase {
  offline_engine : option string;
  offline_session : option string
}.

Definition __init__ : OfflineDatabase := mkOfflineDatabase None None.

(** A method of [OfflineDatabase]: from the object and the stores to
    the returned value and the object and the stores afterwards. *)
Definition method (A : Type) : Type :=
  OfflineDatabase * stores → A * (OfflineDatabase * stores).

(** A body that is only [pass]: falls off the end, returning [None]. *)
Definition pass : method value := λ s, (VNone, s).

(** [OfflineDatabase.sync_to_online]: docstring, comments, [pass]. *)
Definition sync_to_online (user_id : string) : method value := pass.

(** [OfflineDatabase.sync_from_online]: docstring, comment, [pass]. *)
Definition sync_from_online (user_id : string) : method value := pass.

End Database.

(* ===================================================================== *)
(** * The sync reconciler of the specification (section 4.1) *)
(* ===================================================================== *)

(** The repository declares the sync columns and leaves
    [OfflineDatabase.sync_to_online] empty; [reconcile] itself exists only
    as the design of the specification. This module writes that design
    down, step by step as its section 4.1 gives it. The Record Store is a
    finite map that cannot fail, so [StoreUnavailableError] does not
    arise; the update that the manual policy holds back and
    [resolve_conflict] are not part of it. *)
Module Reconciler.
Import Py.

(** Modelled from the spec: the [sync_status] enum of a Record
    (section 3); the repository stores it as a string column. *)
Inductive sync_state : Type := synced | pending | in_conflict.

(** Modelled from the spec: a Record as the reconciler sees it
    (section 3), with the originating device that namespaces
    [offline_id] and the soft-delete marker of step 3; no reconciler
    type exists in the repository. *)
Record Rec : Type := mkRec {
  id : string;
  updated_at : Z;
  sync_status : sync_state;
  last_sync_at : option Z;
  device : string;
  offline_id : option string;
  payload : gmap string value;
  deleted : bool
}.

(** Modelled from the spec: the three operation kinds of a SyncBatch. *)
Inductive kind : Type := create | update | delete.

(** Modelled from the spec: one operation of a SyncBatch,
    [{record_id_or_offline_id, base_version, payload, op_kind}]. *)
Record operation : Type := mkOperation {
  record_id_or_offline_id : string;
  base_version : option Z;
  op_payload : gmap string value;
  op_kind : kind
}.

(** Modelled from the spec: a SyncBatch (section 3). *)
Record SyncBatch : Type := mkSyncBatch {
  user_id : string;
  device_id : string;
  submitted_at : Z;
  operations : list operation
}.

(** Modelled from the spec: the per-operation errors of section 7. *)
Inductive op_error : Type := RecordNotFound | ValidationFailure.

(** Modelled from the spec: the per-operation outcomes of
    [sync_details], [applied | conflict | duplicate_ignored |
    stale_ignored | error]. *)
Inductive op_outcome : Type :=
  | applied
  | conflict
  | duplicate_ignored
  | stale_ignored
  | error (e : op_error).

(** Modelled from the spec: the [status] of a SyncLog. *)
Inductive log_status : Type := success | failed | partial.

(** Modelled from the spec: the SyncLog a reconciliation produces; the
    repository has the table, nothing fills it. The duration is left
    out. *)
Record SyncLog : Type := mkSyncLog {
  status : log_status;
  records_affected : nat;
  conflicts_count : nat;
  sync_details : list op_outcome
}.

(** Modelled from the spec: the conflict resolution policies. *)
Inductive policy : Type := last_writer_wins | manual.

(** Modelled from the spec: the Record Store, keyed by [id] (one Record
    per id), and the append-only list of SyncLogs. *)
Record world : Type := mkWorld {
  records : gmap string Rec;
  sync_logs : list SyncLog
}.

(** Modelled from the spec: the structural rejection of section 7. *)
Inductive batch_error : Type := MalformedBatchError.

Global Instance op_error_eq_dec : EqDecision op_error.
Proof. solve_decision. Defined.

Global Instance op_outcome_eq_dec : EqDecision op_outcome.
Proof. solve_decision. Defined.

(** Modelled from the spec: a failed operation is one whose outcome is
    [error]; a conflict or an ignored duplicate is a recorded outcome, not
    a failure (section 7). *)
Definition is_error (o : op_outcome) : bool :=
  match o with error _ => true | _ => false end.

(** Modelled from the spec: a Record that [dev] created offline under
    [oid], the key of the duplicate check of step 1. *)
Definition created_as (dev oid : string) (r : Rec) : Prop :=
  device r = dev ∧ offline_id r = Some oid.

Global Instance created_as_dec dev oid r : Decision (created_as dev oid r).
Proof. unfold created_as. apply _. Defined.

(** Modelled from the spec: [find_by_offline_id(device_id, offline_id)]
    of the Record Store interface (section 6). *)
Definition find_by_offline_id (dev oid : string) (s : gmap string Rec)
    : option Rec :=
  head (filter (created_as dev oid) (map_to_list s).*2).

(** Modelled from the spec: the invariant of section 3 that offline ids
    are unique per originating device: no device has two Records under
    one offline id. *)
Definition offline_ids_unique (s : gmap string Rec) : Prop :=
  ∀ k1 k2 r1 r2 dev oid,
    s !! k1 = Some r1 → s !! k2 = Some r2 →
    created_as dev oid r1 → created_as dev oid r2 → k1 = k2.

(** Modelled from the spec: "the store never regresses": every Record of
    [s] is still in [s'], at the same or a later version, and at the same
    version it has the same payload and deletion mark. *)
Definition never_regresses (s s' : gmap string Rec) : Prop :=
  ∀ k r, s !! k = Some r →
    ∃ r', s' !! k = Some r'
          ∧ updated_at r ≤ updated_at r'
          ∧ (updated_at r' = updated_at r →
             payload r' = payload r ∧ deleted r' = deleted r).

(** Modelled from the spec: the new [id] a create assigns. *)
Definition new_id (s : gmap string Rec) : string := fresh (dom s).

(** Modelled from the spec: [bump updated_at]; the new version is the
    submission time, and in any case later than the stored one. *)
Definition bump (now stored : Z) : Z := Z.max now (stored + 1).

(** Modelled from the spec: "apply payload, bump [updated_at], mark
    [synced]" of step 2. *)
Definition with_version_payload (v : Z) (now : Z) (p : gmap string value)
    (r : Rec) : Rec :=
  mkRec (id r) v synced (Some now) (device r) (offline_id r) p (deleted r).

(** Modelled from the spec: the soft delete of step 3: the deletion
    marker is set, the Record stays. *)
Definition soft_deleted (v : Z) (now : Z) (r : Rec) : Rec :=
  mkRec (id r) v synced (Some now) (device r) (offline_id r) (payload r) true.

(** Modelled from the spec: a change of [sync_status] alone. *)
Definition with_status (st : sync_state) (r : Rec) : Rec :=
  mkRec (id r) (updated_at r) st (last_sync_at r) (device r) (offline_id r)
    (payload r) (deleted r).

(** Modelled from the spec: the input constraints of [reconcile]: a
    non-empty batch, [base_version] present for update and delete and
    absent for create. *)
Definition well_formed_op (op : operation) : bool :=
  match op_kind op with
  | create => bool_decide (base_version op = None)
  | update | delete => bool_decide (is_Some (base_version op))
  end.

(** Modelled from the spec: the same constraints for a whole batch. *)
Definition well_formed (b : SyncBatch) : bool :=
  match operations b with
  | [] => false
  | ops => forallb well_formed_op ops
  end.

Section Reconcile.
(** Modelled from the spec: the payload validation of the entity schema,
    opaque to the reconciler, and the configured policy. *)
Variable payload_valid : gmap string value → bool.
Variable pol : policy.

(** Modelled from the spec: the resolution of a conflict ("conflict: do
    not overwrite. Apply the configured resolution policy"). Neither
    policy writes the incoming payload: last-writer-wins keeps the
    stored Record as it is, the manual policy leaves it in state
    [conflict] with its payload untouched. *)
Definition resolve (r : Rec) : Rec :=
  match pol with
  | last_writer_wins => r
  | manual => with_status in_conflict r
  end.

(** Modelled from the spec: step 1, create. *)
Definition apply_create (dev : string) (now : Z) (op : operation)
    (s : gmap string Rec) : gmap string Rec * op_outcome :=
  let oid := record_id_or_offline_id op in
  match find_by_offline_id dev oid s with
  | Some _ => (s, duplicate_ignored)
  | None =>
      if payload_valid (op_payload op) then
        let r := mkRec (new_id s) now synced (Some now) dev (Some oid)
                   (op_payload op) false in
        (<[id r := r]> s, applied)
      else (s, error ValidationFailure)
  end.

(** Modelled from the spec: the version check shared by steps 2 and 3.
    Equal versions apply [change]. When the stored version is newer
    than [base_version] the operation is stale, and the guarantee that
    closes the steps of 4.1 and "Monotonic acceptance" of section 8 are
    followed: it is silently dropped, outcome [stale_ignored], the
    store left as it is and nothing counted. (The second bullet of
    step 2 and the example of section 8 call the same case a conflict;
    the two readings cannot both hold, and the outcome [stale_ignored]
    has no other place in 4.1.) A [base_version] that is neither, ahead
    of the stored version, has diverged from the store (section 3): a
    conflict, counted and resolved by the policy without overwriting. *)
Definition versioned (now : Z) (op : operation) (s : gmap string Rec)
    (change : Z → Rec → Rec) : gmap string Rec * op_outcome :=
  let k := record_id_or_offline_id op in
  match s !! k with
  | None => (s, error RecordNotFound)
  | Some r =>
      match base_version op with
      | None => (s, error ValidationFailure)
      | Some base =>
          if bool_decide (updated_at r = base) then
            (<[k := change (bump now (updated_at r)) r]> s, applied)
          else if bool_decide (base < updated_at r) then
            (s, stale_ignored)
          else (<[k := resolve r]> s, conflict)
      end
  end.

(** Modelled from the spec: steps 1 to 3 for one operation. *)
Definition apply_operation (dev : string) (now : Z) (op : operation)
    (s : gmap string Rec) : gmap string Rec * op_outcome :=
  match op_kind op with
  | create => apply_create dev now op s
  | update =>
      if payload_valid (op_payload op) then
        versioned now op s (λ v r, with_version_payload v now (op_payload op) r)
      else (s, error ValidationFailure)
  | delete => versioned now op s (λ v r, soft_deleted v now r)
  end.

(** Modelled from the spec: the totals the loop keeps for the SyncLog:
    [records_affected], [conflicts_count] and [sync_details]. *)
Record tally : Type := mkTally {
  affected : nat;
  conflicts : nat;
  details : list op_outcome
}.

(** Modelled from the spec: an outcome entered into the totals; only
    [applied] counts as affected, only [conflict] as a conflict. *)
Definition record_outcome (o : op_outcome) (t : tally) : tally :=
  mkTally
    (match o with applied => S (affected t) | _ => affected t end)
    (match o with conflict => S (conflicts t) | _ => conflicts t end)
    (details t ++ [o]).

(** Modelled from the spec: one turn of the loop "for each operation,
    in submission order"; an error is an entry like any other and the
    loop goes on. *)
Definition step (dev : string) (now : Z)
    (st : gmap string Rec * tally) (op : operation)
    : gmap string Rec * tally :=
  let '(s', o) := apply_operation dev now op st.1 in
  (s', record_outcome o st.2).

(** Modelled from the spec: the loop over the operations of a batch. *)
Definition run_operations (dev : string) (now : Z)
    (st : gmap string Rec * tally) (ops : list operation)
    : gmap string Rec * tally :=
  foldl (step dev now) st ops.

(** Modelled from the spec: the two counters agree with the entries:
    they are the numbers of [applied] and of [conflict] outcomes. *)
Definition counted (t : tally) : Prop :=
  affected t = length (filter (λ o, o = applied) (details t))
  ∧ conflicts t = length (filter (λ o, o = conflict) (details t)).

(** Modelled from the spec: [partial] if an operation failed while
    others succeeded; no failure is [success], only failures is
    [failed]. *)
Definition status_of (ds : list op_outcome) : log_status :=
  if forallb (λ o, negb (is_error o)) ds then success
  else if existsb (λ o, negb (is_error o)) ds then partial
  else failed.

(** Modelled from the spec: [reconcile(batch) -> SyncLog]. A malformed
    batch is rejected before the store is touched; otherwise the
    operations run in order and exactly one SyncLog is appended. *)
Definition reconcile (w : world) (b : SyncBatch)
    : batch_error + world * SyncLog :=
  if well_formed b then
    let '(s', t) :=
      run_operations (device_id b) (submitted_at b)
        (records w, mkTally 0 0 []) (operations b) in
    let log := mkSyncLog (status_of (details t)) (affected t)
                 (conflicts t) (details t) in
    inr (mkWorld s' (sync_logs w ++ [log]), log)
  else inl MalformedBatchError.
End Reconcile.

End Reconciler.

(* ===================================================================== *)
(** * Sample data *)
(* ===================================================================== *)

Module Fixtures.
Import Py.

(** Formatters for the examples: they print the number in decimal. *)
Definition decimal_formatters : Formatters :=
  {| uuid_str := λ u, pretty u; isoformat := λ t, pretty t |}.

(** Formatters with the UUID as Python prints it and the time in
    decimal. *)
Definition canonical_formatters : Formatters :=
  {| uuid_str := canonical_uuid_str; isoformat := λ t, pretty t |}.

(** A farm just constructed, and the same farm saved, edited on a device
    as "o7" and synced at time 250. *)
Definition unsaved_farm : Instances.Instance :=
  Instances.construct
    (<["country_code" := VStr "NG"]> (<["owner_id" := VUuid 9%N]> ∅)).

Definition synced_farm : Instances.Instance :=
  let saved := Instances.insert 5%N 100 100 ∅ unsaved_farm in
  let edited :=
    Instances.mkInstance (Instances.id saved) (Instances.created_at saved)
      (Instances.updated_at saved) (Instances.is_deleted saved)
      (Instances.deleted_at saved) (Instances.sync_status saved)
      (Instances.last_sync_at saved) (Some "o7"%string)
      (Instances.language_code saved) (Instances.cultural_context saved)
      (Instances.mobile_optimized saved) (Instances.data_residency_country saved)
      (Instances.metadata_info saved) (Instances.own_columns saved) in
  Instances.mark_synced 250 (Instances.mark_for_sync 200 edited).

(** A farm of a user in Nigeria, never synced. *)
Definition sample_farm : Shared.BaseModel :=
  Shared.new_record 5%N 100 100
    (<["country_code" := VStr "NG"]> (<["owner_id" := VUuid 9%N]> ∅)).

(** A schema that accepts every payload. *)
Definition accept_all (p : gmap string value) : bool := true.

(** A schema that wants a ["name"]. *)
Definition needs_name (p : gmap string value) : bool :=
  bool_decide (is_Some (p !! "name"%string)).

(** An update of "r1" that carries no name. *)
Definition update_unnamed : Reconciler.operation :=
  Reconciler.mkOperation "r1" (Some 2) ∅ Reconciler.update.

Definition named (n : string) : gmap string value :=
  <["name"%string := VStr n]> ∅.

(** A store with one Record, "r1", at version 2. *)
Definition farm_v2 : Reconciler.Rec :=
  Reconciler.mkRec "r1" 2 Reconciler.synced (Some 2) "dev1" (Some "o0"%string)
    (named "Farm A2") false.

Definition one_farm : Reconciler.world :=
  Reconciler.mkWorld (<["r1"%string := farm_v2]> ∅) [].

(** An update of "r1" made from version 1, arriving when the store is at
    version 2. *)
Definition stale_update : Reconciler.operation :=
  Reconciler.mkOperation "r1" (Some 1) (named "Farm A1") Reconciler.update.

Definition stale_batch : Reconciler.SyncBatch :=
  Reconciler.mkSyncBatch "u1" "dev1" 10 [stale_update].

(** An update of "r1" made from version 3, which the store has not
    reached. *)
Definition ahead_update : Reconciler.operation :=
  Reconciler.mkOperation "r1" (Some 3) (named "Farm A3") Reconciler.update.

(** Three operations, the second on a Record that does not exist. *)
Definition update_r1 : Reconciler.operation :=
  Reconciler.mkOperation "r1" (Some 2) (named "Farm B") Reconciler.update.

Definition update_missing : Reconciler.operation :=
  Reconciler.mkOperation "r9" (Some 1) (named "Farm C") Reconciler.update.

Definition create_o1 : Reconciler.operation :=
  Reconciler.mkOperation "o1" None (named "Farm D") Reconciler.create.

Definition mixed_batch : Reconciler.SyncBatch :=
  Reconciler.mkSyncBatch "u1" "dev1" 10 [update_r1; update_missing; create_o1].

(** A create that repeats the offline id under which "r1" was made. *)
Definition create_again : Reconciler.operation :=
  Reconciler.mkOperation "o0" None (named "Farm A2") Reconciler.create.

End Fixtures.

(* ===================================================================== *)
(** * backend/app/core/config.py: the list validators *)
(* ===================================================================== *)

Module Validators.
Import Py.
Import (notations) Stdlib.Strings.Ascii.

(** [s.startswith("[")]. *)
Definition startswith_bracket (s : string) : bool :=
  match s with
  | String c _ => bool_decide (c = "["%char)
  | EmptyString => false
  end.

(** [s.split(sep)] for a separator of one character: the pieces between
    the separators, in order; a string without separator is one piece. *)
Fixpoint split (sep : Ascii.ascii) (s : string) : list string :=
  match s with
  | EmptyString => [EmptyString]
  | String c s' =>
      if bool_decide (c = sep) then EmptyString :: split sep s'
      else
        match split sep s' with
        | item :: items => String c item :: items
        | [] => [String c EmptyString]
        end
  end.

(** [sep.join(items)]. *)
Fixpoint join (sep : Ascii.ascii) (items : list string) : string :=
  match items with
  | [] => EmptyString
  | item :: rest =>
      match rest with
      | [] => item
      | _ :: _ => item +:+ String sep (join sep rest)
      end
  end.

(** [s.count(sep)] for a separator of one character. *)
Fixpoint count (sep : Ascii.ascii) (s : string) : nat :=
  match s with
  | EmptyString => 0%nat
  | String c s' => ((if bool_decide (c = sep) then 1 else 0) + count sep s')%nat
  end.

(** What a [pre=True] validator does with the raw value: it returns a
    value for pydantic to go on with, or raises [ValueError(v)]. *)
Inductive validated : Type :=
  | Accepted (v : value)
  | ValueError (v : value).

Section Assemble.
(** [str.strip()], which removes surrounding whitespace. *)
Variable strip : string → string.

(** The body the three validators share, statement for statement: a
    string that does not start with a bracket is split at its commas and
    each piece stripped; a list, or a string with a bracket, is passed
    on; anything else is refused. *)
Definition assemble (v : value) : validated :=
  match v with
  | VStr s =>
      if negb (startswith_bracket s)
      then Accepted (VList ((λ i, VStr (strip i)) <$> split "," s))
      else Accepted v
  | VList _ => Accepted v
  | _ => ValueError v
  end.

(** [Settings.assemble_cors_origins]. *)
Definition assemble_cors_origins : value → validated := assemble.

(** [Settings.assemble_allowed_hosts]. *)
Definition assemble_allowed_hosts : value → validated := assemble.

(** [Settings.assemble_languages]. *)
Definition assemble_languages : value → validated := assemble.
End Assemble.

End Validators.

(* ===================================================================== *)
(** * backend/app/core/config.py: the country and calendar tables *)
(* ===================================================================== *)

Module ConfigTables.
Import Py.

(** The defaults of three list fields of [Settings]. *)
Definition AFRICAN_REGIONS : list string :=
  [ "west-africa"; "east-africa"; "central-africa"; "north-africa";
    "southern-africa" ].

Definition SUPPORTED_LANGUAGES : list string :=
  [ "en"; "fr"; "ar"; "sw"; "ha"; "yo"; "am"; "zu" ].

Definition MOBILE_MONEY_PROVIDERS : list string :=
  [ "mpesa"; "mtn_money"; "orange_money"; "airtel_money" ].

(** One entry of [AFRICAN_COUNTRIES]. *)
Record country : Type := mkCountry {
  name : string;
  region : string;
  languages : list string;
  currency : string;
  mobile_money : list string;
  timezone : string
}.

Definition AFRICAN_COUNTRIES : gmap string country :=
  list_to_map
    [ ("NG", mkCountry "Nigeria" "west-africa" ["en"; "ha"; "yo"] "NGN"
               ["mtn_money"; "airtel_money"] "Africa/Lagos");
      ("KE", mkCountry "Kenya" "east-africa" ["en"; "sw"] "KES"
               ["mpesa"; "airtel_money"] "Africa/Nairobi");
      ("GH", mkCountry "Ghana" "west-africa" ["en"] "GHS"
               ["mtn_money"; "airtel_money"] "Africa/Accra");
      ("ZA", mkCountry "South Africa" "southern-africa" ["en"; "zu"] "ZAR"
               [] "Africa/Johannesburg");
      ("ET", mkCountry "Ethiopia" "east-africa" ["am"; "en"] "ETB"
               [] "Africa/Addis_Ababa");
      ("SN", mkCountry "Senegal" "west-africa" ["fr"] "XOF"
               ["orange_money"] "Africa/Dakar");
      ("EG", mkCountry "Egypt" "north-africa" ["ar"; "en"] "EGP"
               [] "Africa/Cairo");
      ("MA", mkCountry "Morocco" "north-africa" ["ar"; "fr"] "MAD"
               [] "Africa/Casablanca") ].

Definition season (first last : string) : value :=
  VDict (list_to_map [ ("start", VStr first); ("end", VStr last) ]).

Definition strings (l : list string) : value := VList (VStr <$> l).

Definition CROP_CALENDARS : gmap string (gmap string value) :=
  list_to_map
    [ ("west-africa", list_to_map
         [ ("rainy_season", season "05-01" "10-31");
           ("dry_season", season "11-01" "04-30");
           ("main_crops", strings ["maize"; "rice"; "cassava"; "yam"; "cocoa"]);
           ("planting_months", strings ["04"; "05"; "06"]);
           ("harvest_months", strings ["09"; "10"; "11"; "12"]) ]);
      ("east-africa", list_to_map
         [ ("long_rains", season "03-01" "05-31");
           ("short_rains", season "10-01" "12-31");
           ("main_crops", strings ["maize"; "beans"; "coffee"; "tea"; "bananas"]);
           ("planting_months", strings ["03"; "04"; "10"; "11"]);
           ("harvest_months", strings ["07"; "08"; "01"; "02"]) ]);
      ("southern-africa", list_to_map
         [ ("rainy_season", season "11-01" "03-31");
           ("dry_season", season "04-01" "10-31");
           ("main_crops", strings ["maize"; "wheat"; "soybeans"; "tobacco"]);
           ("planting_months", strings ["10"; "11"; "12"]);
           ("harvest_months", strings ["03"; "04"; "05"]) ]);
      ("north-africa", list_to_map
         [ ("winter_season", season "11-01" "04-30");
           ("summer_season", season "05-01" "10-31");
           ("main_crops", strings ["wheat"; "barley"; "olives"; "citrus"]);
           ("planting_months", strings ["11"; "12"; "01"]);
           ("harvest_months", strings ["05"; "06"; "07"]) ]);
      ("central-africa", list_to_map
         [ ("rainy_season", season "04-01" "11-30");
           ("dry_season", season "12-01" "03-31");
           ("main_crops", strings ["cassava"; "plantain"; "cocoa"; "coffee"]);
           ("planting_months", strings ["04"; "05"; "06"]);
           ("harvest_months", strings ["10"; "11"; "12"]) ]) ].

(** The names [config.py] binds at its top level. *)
Definition module_names : list string :=
  [ "os"; "List"; "Optional"; "Union"; "lru_cache"; "BaseSettings";
    "validator"; "Field"; "AnyHttpUrl"; "PostgresDsn"; "Settings";
    "DevelopmentSettings"; "ProductionSettings"; "TestingSettings";
    "get_settings"; "settings"; "AFRICAN_COUNTRIES"; "CROP_CALENDARS" ].

End ConfigTables.

(* ===================================================================== *)
(** * backend/app/core/database.py: AfricanAgriculturalData *)
(* ===================================================================== *)

Module AgriculturalData.
Import Py.

(** The names [database.py] binds at its top level: its imports (of
    [app.core.config] only [settings]), the engines and session
    factories, the classes and functions, and [__all__]. *)
Definition module_names : list string :=
  [ "asyncio"; "AsyncGenerator"; "Optional"; "create_engine"; "MetaData";
    "event"; "AsyncSession"; "create_async_engine"; "async_sessionmaker";
    "declarative_base"; "sessionmaker"; "StaticPool"; "structlog";
    "settings"; "logger"; "metadata"; "Base"; "async_engine"; "sync_engine";
    "AsyncSessionLocal"; "SessionLocal"; "DatabaseManager"; "db_manager";
    "get_async_session"; "get_sync_session"; "OfflineDatabase";
    "AfricanAgriculturalData"; "create_tables"; "init_database"; "__all__" ].

(** Loading a name inside a function: its local names first, then the
    names of the module. None of the names loaded below is a builtin. *)
Definition load_name (locals : list string) (name : string) : outcome unit :=
  if bool_decide (name ∈ locals ++ module_names) then Return tt
  else Raise (NameError name).

(** The calendar [get_crop_calendar] ends with. *)
Definition default_calendar : gmap string value :=
  list_to_map
    [ ("rainy_season", ConfigTables.season "04-01" "10-31");
      ("dry_season", ConfigTables.season "11-01" "03-31");
      ("main_crops", ConfigTables.strings ["maize"; "cassava"; "beans"]);
      ("planting_months", ConfigTables.strings ["04"; "05"; "06"]);
      ("harvest_months", ConfigTables.strings ["09"; "10"; "11"]) ].

(** [AfricanAgriculturalData.get_crop_calendar]. The import inside the
    function binds [CROP_CALENDARS] as a local name, if [config.py] has
    it; [AFRICAN_COUNTRIES] is loaded next, before any lookup is made. *)
Definition get_crop_calendar (country_code region : string)
    : outcome (gmap string value) :=
  if bool_decide ("CROP_CALENDARS" ∈ ConfigTables.module_names) then
    let locals := [ "country_code"; "region"; "CROP_CALENDARS" ] in
    match load_name locals "AFRICAN_COUNTRIES" with
    | Raise e => Raise e
    | Return _ =>
        let region_key :=
          ConfigTables.region <$> ConfigTables.AFRICAN_COUNTRIES !! country_code in
        match region_key with
        | Some key =>
            if bool_decide (key ≠ "") then
              match ConfigTables.CROP_CALENDARS !! key with
              | Some calendar => Return calendar
              | None => Return default_calendar
              end
            else Return default_calendar
        | None => Return default_calendar
        end
    end
  else Raise (NameError "CROP_CALENDARS").

(** The dictionary literal of [get_local_varieties]. *)
Definition local_varieties : gmap string (gmap string (list string)) :=
  list_to_map
    [ ("maize", list_to_map
         [ ("NG", ["Oba Super 2"; "Sammaz 15"; "Sammaz 17"]);
           ("KE", ["H614"; "H6213"; "DK8031"]);
           ("GH", ["Obatanpa"; "Mamaba"; "Aburohemaa"]) ]);
      ("rice", list_to_map
         [ ("NG", ["FARO 44"; "FARO 52"; "NERICA 1"]);
           ("GH", ["Jasmine 85"; "Tox 3145"; "Agra Rice"]);
           ("SN", ["Sahel 108"; "Sahel 177"; "Sahel 201"]) ]) ].

(** [AfricanAgriculturalData.get_local_varieties]:
    [local_varieties.get(crop, {}).get(country_code, [])]. *)
Definition get_local_varieties (crop country_code : string) : list string :=
  default [] (default ∅ (local_varieties !! crop) !! country_code).

End AgriculturalData.

(* ===================================================================== *)
(** * backend/app/core/database.py: get_sync_session *)
(* ===================================================================== *)

Module Sessions.

(** Where the class of a raised object sits under [BaseException], as far
    as the generator can tell: outside [Exception] ([GeneratorExit],
    [KeyboardInterrupt], [SystemExit]), under [Exception], or under
    [StopIteration], which itself derives from [Exception]. *)
Inductive ancestry : Type := BaseOnly | FromException | FromStopIteration.

(** A raised object by its class name and the ancestry of the class. *)
Inductive pyexc : Type := PyExc (cls : string) (base : ancestry).

(** [isinstance(e, Exception)]. *)
Definition is_Exception (e : pyexc) : bool :=
  match e with
  | PyExc _ BaseOnly => false
  | PyExc _ _ => true
  end.

(** [isinstance(e, StopIteration)]. *)
Definition is_StopIteration (e : pyexc) : bool :=
  match e with
  | PyExc _ FromStopIteration => true
  | PyExc _ _ => false
  end.

(** [RuntimeError("generator raised StopIteration")]. *)
Definition generator_raised_StopIteration : pyexc :=
  PyExc "RuntimeError" FromException.

(** What the caller of a generator sees of an exception that leaves the
    generator's frame: a [StopIteration] is replaced by a
    [RuntimeError] (PEP 479), anything else passes. *)
Definition out_of_generator (e : pyexc) : pyexc :=
  if is_StopIteration e then generator_raised_StopIteration else e.

(** The calls the generator makes, in the order it makes them. *)
Inductive call : Type := SessionLocal | Commit | Rollback | LogError | Close.

Global Instance call_eq_dec : EqDecision call.
Proof. solve_decision. Defined.

(** A computation that adds to the journal of calls and returns or
    raises. *)
Definition M (A : Type) : Type := list call → list call * (A + pyexc).

Definition ret {A} (a : A) : M A := λ j, (j, inl a).

Definition raise {A} (e : pyexc) : M A := λ j, (j, inr e).

Definition bind {A B} (m : M A) (k : A → M B) : M B :=
  λ j, match m j with
       | (j', inl a) => k a j'
       | (j', inr e) => (j', inr e)
       end.

Definition and_then {A B} (m : M A) (k : M B) : M B := bind m (λ _, k).

Infix ">>" := and_then (at level 60, right associativity).

(** One call, which raises if [fault] says so. *)
Definition perform (c : call) (fault : option pyexc) : M unit :=
  λ j, (j ++ [c], match fault with Some e => inr e | None => inl tt end).

(** [try: body except Exception as e: handler]. *)
Definition try_except {A} (body : M A) (handler : pyexc → M A) : M A :=
  λ j, match body j with
       | (j', inr e) => if is_Exception e then handler e j' else (j', inr e)
       | done => done
       end.

(** [try: body finally: final]: [final] always runs, and an exception of
    [final] replaces what [body] ended with. *)
Definition try_finally {A} (body : M A) (final : M unit) : M A :=
  λ j, let '(j', r) := body j in
       match final j' with
       | (j'', inr e) => (j'', inr e)
       | (j'', inl _) => (j'', r)
       end.

(** The frame of a generator function around its body. *)
Definition generator_frame {A} (body : M A) : M A :=
  λ j, match body j with
       | (j', inr e) => (j', inr (out_of_generator e))
       | done => done
       end.

(** Which of the session's calls raise, and what. *)
Record faults : Type := mkFaults {
  creation : option pyexc;
  commit : option pyexc;
  rollback : option pyexc;
  close : option pyexc
}.

(** The [yield]: the consumer resumes the generator, or throws into it
    (an error of the request, or [GeneratorExit] when it closes the
    generator). *)
Definition yield_session (thrown : option pyexc) : M unit :=
  match thrown with
  | Some e => raise e
  | None => ret tt
  end.

(** [get_sync_session], run to its end. The logger does not raise. *)
Definition get_sync_session (s : faults) (thrown : option pyexc) : M unit :=
  generator_frame
    (perform SessionLocal (creation s) >>
     try_finally
       (try_except
          (yield_session thrown >> perform Commit (commit s))
          (λ e, perform Rollback (rollback s) >>
                perform LogError None >>
                raise e))
       (perform Close (close s))).

(** What the [try] block ends with before any handler runs. *)
Definition body_error (s : faults) (thrown : option pyexc) : option pyexc :=
  match thrown with
  | Some e => Some e
  | None => commit s
  end.

End Sessions.

(* ===================================================================== *)
(** * backend/app/core/database.py: setup_offline_db and the query log *)
(* ===================================================================== *)

Module OfflineSetup.
Import Py Database.

(** [f"offline_data/user_{user_id}.db"]. *)
Definition offline_db_path (user_id : string) : string :=
  "offline_data/user_" +:+ user_id +:+ ".db".

(** [f"sqlite:///{offline_db_path}"], the URL of the engine. *)
Definition offline_db_url (user_id : string) : string :=
  "sqlite:///" +:+ offline_db_path user_id.

(** Which of the calls of [setup_offline_db] raise, and what:
    [create_engine], on a URL it cannot use, and
    [Base.metadata.create_all], which is the first to open the file (the
    code never makes the directory [offline_data]). [sessionmaker] only
    builds a factory and the logger does not raise. *)
Record setup_faults : Type := mkSetupFaults {
  create_engine : option Sessions.pyexc;
  create_all : option Sessions.pyexc
}.

(** [OfflineDatabase.setup_offline_db]: the engine is assigned to
    [self.offline_engine] as soon as it is made, the tables are created
    through it, and only then is the session factory assigned. An engine
    and a factory are known by the URL they were made for; which file the
    driver opens for a URL is not part of the model. An exception leaves
    the method at the call that raised it. *)
Definition setup_offline_db (f : setup_faults) (user_id : string)
    : OfflineDatabase * stores
      → (value + Sessions.pyexc) * (OfflineDatabase * stores) :=
  λ '(self, st),
    let url := offline_db_url user_id in
    match create_engine f with
    | Some e => (inr e, (self, st))
    | None =>
        let self := mkOfflineDatabase (Some url) (offline_session self) in
        match create_all f with
        | Some e => (inr e, (self, st))
        | None =>
            let st := mkStores (offline_rows st) (online_rows st) (sync_logs st)
                        (statements st ++ ["create_all " +:+ url]) in
            (inl VNone, (mkOfflineDatabase (offline_engine self) (Some url), st))
        end
    end.

Section SlowQuery.
(** A statement is a sequence of characters; [len] counts them. *)
Context {char : Type}.
Variable dot : char.

(** [statement[:100] + "..." if len(statement) > 100 else statement]. *)
Definition logged_statement (statement : list char) : list char :=
  if bool_decide (100 < length statement)%nat
  then take 100 statement ++ [dot; dot; dot]
  else statement.

(** [receive_after_cursor_execute]: the statement that goes into the
    warning, if there is one; [slow] is the outcome of [total > 1.0]. *)
Definition receive_after_cursor_execute (slow : bool)
    (statement : list char) : option (list char) :=
  if slow then Some (logged_statement statement) else None.
End SlowQuery.

End OfflineSetup.

(* ===================================================================== *)
(** * backend/app/models/user.py: age, and runs of failed logins *)
(* ===================================================================== *)

Module UserAge.

(** A [date] by its three attributes. *)
Record ymd : Type := mkYmd { year : Z; month : Z; day : Z }.

(** The order of [date] objects, which is the order of the triples. *)
Definition date_lt (a b : ymd) : Prop :=
  year a < year b
  ∨ (year a = year b
     ∧ (month a < month b ∨ (month a = month b ∧ day a < day b))).

Definition date_le (a b : ymd) : Prop := date_lt a b ∨ a = b.

(** [(m1, d1) < (m2, d2)] on tuples. *)
Definition pair_lt (m1 d1 m2 d2 : Z) : bool :=
  bool_decide (m1 < m2 ∨ (m1 = m2 ∧ d1 < d2)).

(** [User.age]: [None] without a date of birth; otherwise the difference
    of the years, less one ([True] counts as 1) when today's (month, day)
    is before the birthday's. A [date] is always truthy. *)
Definition age (today : ymd) (date_of_birth : option ymd) : option Z :=
  match date_of_birth with
  | Some born =>
      Some (year today - year born
            - (if pair_lt (month today) (day today) (month born) (day born)
               then 1 else 0))
  | None => None
  end.

(** The birthday in the year [n] years after birth, as a triple. *)
Definition anniversary (born : ymd) (n : Z) : ymd :=
  mkYmd (year born + n) (month born) (day born).

End UserAge.

Module LoginHistory.
Import Py UserModel.

(** [increment_failed_login] called once per clock reading, with the
    user left by one call going into the next; an exception is caught by
    the caller, who goes on. *)
Fixpoint failed_logins (clock : list datetime) (u : User)
    : User * list (outcome unit) :=
  match clock with
  | [] => (u, [])
  | utcnow :: later =>
      let '(u1, r) := increment_failed_login utcnow u in
      let '(u2, rs) := failed_logins later u1 in
      (u2, r :: rs)
  end.

End LoginHistory.

(* ===================================================================== *)
(** * backend/app/models/farm.py: farm_age *)
(* ===================================================================== *)

Module FarmModel.
Import Py.

(** The two columns [Farm.farm_age] reads. *)
Record Farm : Type := mkFarm {
  establishment_date : option date;
  years_in_operation : option Z
}.

(** [Farm.farm_age]: whole periods of 365 days since the establishment
    date, [//] rounding down; without a date, [years_in_operation]. *)
Definition farm_age (today : date) (f : Farm) : option Z :=
  match establishment_date f with
  | Some established => Some ((today - established) `div` 365)
  | None => years_in_operation f
  end.

End FarmModel.

(* ===================================================================== *)
(** * The sync life cycle of a record (shared.py) *)
(* ===================================================================== *)

Section Lifecycle.
Import Py Shared.

Lemma sync_status_set s r : sync_status (set_sync_status s r) = s.
Proof. reflexivity. Qed.

Lemma call_sync_status c r : sync_status (call c r) ∈ sync_status_values.
Proof.
  destruct c; cbn; unfold sync_status_values; set_solver.
Qed.



End Lifecycle.

Section InstanceLifecycle.
Import Py.

(** A row read back and an instance saved with no value of its own are
    the same thing, and the life-cycle calls do to an instance what they
    do to a row. *)
Lemma insert_construct uuid4 utcnow utcnow' defaults own :
  Instances.insert uuid4 utcnow utcnow' defaults (Instances.construct own)
  = Instances.of_row
      (Shared.new_record uuid4 utcnow utcnow' (Instances.fill_defaults defaults own)).
Proof. reflexivity. Qed.

Lemma call_of_row c r :
  Instances.call c (Instances.of_row r) = Instances.of_row (Shared.call c r).
Proof. by destruct c. Qed.

Lemma instance_call_sync_status c i :
  ∃ s, Instances.sync_status (Instances.call c i) = Some s
       ∧ s ∈ Shared.sync_status_values.
Proof.
  destruct c; cbn; eexists; (split; [reflexivity |]);
    unfold Shared.sync_status_values;
    repeat first [apply list_elem_of_here | apply list_elem_of_further].
Qed.

Lemma insert_sync_status uuid4 utcnow utcnow' defaults i :
  Instances.sync_status (Instances.insert uuid4 utcnow utcnow' defaults i)
  = Some (default "synced"%string (Instances.sync_status i)).
Proof. reflexivity. Qed.

Lemma reachable_sync_status inserted i :
  Instances.reachable inserted i →
  (inserted = false ∧ Instances.sync_status i = None)
  ∨ ∃ s, Instances.sync_status i = Some s ∧ s ∈ Shared.sync_status_values.
Proof.
  induction 1 as [i Hnone | inserted c i _ _ | inserted i i' _ IH Hsame
                 | uuid4 utcnow utcnow' defaults i _ IH].
  - by left.
  - right. apply instance_call_sync_status.
  - by rewrite Hsame.
  - right. rewrite insert_sync_status.
    destruct IH as [[_ ->] | (s & -> & Hs)]; cbn.
    + eexists. split; [reflexivity |]. apply list_elem_of_here.
    + by exists s.
Qed.

(** C6, for instances as Python holds them. The INSERT gives
    [sync_status] the column default "synced" when the attribute was
    never assigned, and an instance constructed and saved is the row
    with that default; each life-cycle call assigns one of "synced",
    "pending", "conflict". Of the instances a program can hold while
    only the model assigns [sync_status], one that has been inserted
    holds one of the three values, and one that has not holds one of
    them or nothing at all. *)
Theorem sync_status_closed :
  (∀ uuid4 utcnow utcnow' defaults i,
     Instances.sync_status i = None →
     Instances.sync_status (Instances.insert uuid4 utcnow utcnow' defaults i)
     = Some "synced"%string)
  ∧ (∀ uuid4 utcnow utcnow' defaults own,
       Instances.insert uuid4 utcnow utcnow' defaults (Instances.construct own)
       = Instances.of_row
           (Shared.new_record uuid4 utcnow utcnow'
              (Instances.fill_defaults defaults own))
       ∧ Shared.sync_status
           (Shared.new_record uuid4 utcnow utcnow'
              (Instances.fill_defaults defaults own)) = "synced"%string)
  ∧ (∀ c i, ∃ s, Instances.sync_status (Instances.call c i) = Some s
                 ∧ s ∈ Shared.sync_status_values)
  ∧ (∀ i, Instances.reachable true i →
       ∃ s, Instances.sync_status i = Some s ∧ s ∈ Shared.sync_status_values)
  ∧ (∀ i, Instances.reachable false i →
       Instances.sync_status i = None
       ∨ ∃ s, Instances.sync_status i = Some s ∧ s ∈ Shared.sync_status_values).
Proof.
  split; [| split; [| split; [| split]]].
  - intros uuid4 utcnow utcnow' defaults i Hnone.
    by rewrite insert_sync_status, Hnone.
  - intros. by split.
  - apply instance_call_sync_status.
  - intros i Hi. by destruct (reachable_sync_status true i Hi) as [[[=] _] | Hs].
  - intros i Hi. destruct (reachable_sync_status false i Hi) as [[_ Hn] | Hs];
      [by left | by right].
Qed.

End InstanceLifecycle.

(** A farm marked as in conflict before it was ever saved, then saved:
    the INSERT leaves the mark; saved untouched, the farm is "synced". *)
Lemma sync_status_closed_witness :
  let marked := Instances.call Shared.CallMarkConflict Fixtures.unsaved_farm in
  let saved := Instances.insert 5%N 100 100 ∅ marked in
  Instances.sync_status Fixtures.unsaved_farm = None
  ∧ Instances.reachable true saved
  ∧ Instances.sync_status saved = Some "conflict"%string
  ∧ (∃ s, Instances.sync_status saved = Some s ∧ s ∈ Shared.sync_status_values)
  ∧ Instances.sync_status (Instances.insert 5%N 100 100 ∅ Fixtures.unsaved_farm)
    = Some "synced"%string.
Proof.
  intros marked saved.
  assert (Hnone : Instances.sync_status Fixtures.unsaved_farm = None)
    by reflexivity.
  assert (Hsaved : Instances.reachable true saved).
  { apply Instances.reachable_insert, Instances.reachable_call.
    apply Instances.reachable_construct, Hnone. }
  split; [exact Hnone |]. split; [exact Hsaved |]. split; [reflexivity |].
  split.
  - exact (proj1 (proj2 (proj2 (proj2 sync_status_closed))) saved Hsaved).
  - exact (proj1 sync_status_closed 5%N 100 100 ∅ Fixtures.unsaved_farm Hnone).
Defined.

(** C6, as the claim words it, fails on a farm that was constructed and
    not yet saved: its [sync_status] is [None], which is not "synced"
    and not one of the three values, and that is what [get_sync_data]
    sends; the life-cycle methods can be called on it as it is. *)
Lemma constructed_record_is_not_synced :
  let r := Fixtures.unsaved_farm in
  Instances.reachable false r
  ∧ Instances.reachable false (Instances.mark_synced 20 r)
  ∧ Instances.sync_status r = None
  ∧ Instances.sync_status r ≠ Some "synced"%string
  ∧ ¬ (∃ s, s ∈ Shared.sync_status_values ∧ Instances.sync_status r = Some s)
  ∧ @Instances.get_sync_data Fixtures.decimal_formatters r !! "sync_status"
    = Some Py.VNone.
Proof.
  cbv zeta.
  assert (Hr : Instances.reachable false Fixtures.unsaved_farm)
    by (by apply Instances.reachable_construct).
  split; [exact Hr |]. split.
  { exact (Instances.reachable_call false (Shared.CallMarkSynced 20) _ Hr). }
  split; [reflexivity |]. split; [discriminate |]. split.
  - intros (s & _ & Hs). discriminate Hs.
  - vm_compute. reflexivity.
Qed.

(* ===================================================================== *)
(** * The sync stubs of OfflineDatabase (database.py) *)
(* ===================================================================== *)

Section Stubs.
Import Py Database.

(** C4. [sync_to_online] and [sync_from_online] return [None] and leave
    the object, both stores, the sync log and the list of issued
    statements exactly as they were, whatever the user. *)
Theorem sync_stubs_do_nothing (user_id : string) (self : OfflineDatabase)
    (st : stores) :
  sync_to_online user_id (self, st) = (VNone, (self, st))
  ∧ sync_from_online user_id (self, st) = (VNone, (self, st)).
Proof. split; reflexivity. Qed.

End Stubs.

(* ===================================================================== *)
(** * Account lockout (user.py) *)
(* ===================================================================== *)

Section Lockout.
Import Py UserModel.

(** C9. A user that was never locked is not locked, whatever the number
    of failed attempts; a user with a lock time is locked exactly while
    the current time is strictly before it. *)
Theorem is_account_locked_spec (utcnow : datetime) (u : User) :
  (account_locked_until u = None →
     ∀ n, is_account_locked utcnow (set_failed_login_attempts n u) = false)
  ∧ (∀ deadline, account_locked_until u = Some deadline →
       (is_account_locked utcnow u = true ↔ utcnow < deadline)).
Proof.
  split.
  - intros Hnone n. unfold is_account_locked. cbn. by rewrite Hnone.
  - intros deadline Hsome. unfold is_account_locked. rewrite Hsome.
    apply bool_decide_eq_true.
Qed.

Lemma is_account_locked_spec_witness :
  is_account_locked 50 (set_failed_login_attempts 9 (sample_user 0 None)) = false
  ∧ (is_account_locked 50 (sample_user 5 (Some 60)) = true ↔ 50 < 60).
Proof.
  split.
  - exact (proj1 (is_account_locked_spec 50 (sample_user 0 None)) eq_refl 9).
  - exact (proj2 (is_account_locked_spec 50 (sample_user 5 (Some 60))) 60 eq_refl).
Defined.

(** Below the threshold the call returns, adds one to the counter and
    leaves the lock time alone. *)
Lemma increment_failed_login_below (utcnow : datetime) (u : User) :
  failed_login_attempts u + 1 < 5 →
  increment_failed_login utcnow u
  = (set_failed_login_attempts (failed_login_attempts u + 1) u, Return tt).
Proof.
  intros Hlt. unfold increment_failed_login. cbn.
  destruct (Z.leb_spec 5 (failed_login_attempts u + 1)); [lia | reflexivity].
Qed.

(** At the threshold the module has no [timedelta] to call. *)
Lemma increment_failed_login_at_threshold (utcnow : datetime) (u : User) :
  5 ≤ failed_login_attempts u + 1 →
  increment_failed_login utcnow u
  = (set_failed_login_attempts (failed_login_attempts u + 1) u,
     Raise (NameError "timedelta")).
Proof.
  intros Hge. unfold increment_failed_login. cbn.
  destruct (Z.leb_spec 5 (failed_login_attempts u + 1)); [reflexivity | lia].
Qed.

(** C10. On the fifth failed login [increment_failed_login] does not
    return: it raises [NameError] for [timedelta], after the counter has
    gone from 4 to 5 and without setting [account_locked_until], so the
    account is not locked afterwards. *)
Theorem increment_failed_login_fifth_raises :
  let u := sample_user 4 None in
  let '(u', result) := increment_failed_login 1000 u in
  result = Raise (NameError "timedelta")
  ∧ failed_login_attempts u' = 5
  ∧ account_locked_until u' = None
  ∧ is_account_locked 1001 u' = false.
Proof. cbn. repeat split. Qed.

End Lockout.

(* ===================================================================== *)
(** * The memoised settings (config.py) *)
(* ===================================================================== *)

Section Settings.
Import Py Config.
Variable validates : settings_class → gmap string string → bool.

Lemma get_settings_hit p o :
  cache p = Some o → get_settings validates p = (p, Return o).
Proof. intros Hc. unfold get_settings. by rewrite Hc. Qed.

(** A call that returns leaves its result in the cache. *)
Lemma get_settings_fills p p' o :
  get_settings validates p = (p', Return o) → cache p' = Some o.
Proof.
  unfold get_settings, get_settings_body.
  destruct (cache p) as [c|] eqn:Hc.
  - intros [= <- <-]. exact Hc.
  - destruct (validates _ _); intros [= <- <-]; reflexivity.
Qed.

(** A call that raises changes nothing. *)
Lemma get_settings_raise p p' e :
  get_settings validates p = (p', Raise e) → p' = p.
Proof.
  unfold get_settings, get_settings_body.
  destruct (cache p); [discriminate |].
  destruct (validates _ _); [discriminate |]. by intros [= <- _].
Qed.

(** Once the cache is filled, every later call is a hit, whatever is done
    to the environment in between. *)
Lemma run_cached acts : ∀ p o,
  cache p = Some o →
  Forall (λ res, res = Return o) (run validates acts p).2.
Proof.
  induction acts as [| a acts IH]; intros p o Hc; [constructor |].
  destruct a as [k v | k |]; cbn.
  - apply IH. exact Hc.
  - apply IH. exact Hc.
  - rewrite (get_settings_hit p o Hc).
    specialize (IH p o Hc). destruct (run validates acts p) as [p'' os].
    cbn in *. by constructor.
Qed.

Lemma run_results_agree acts : ∀ p o1 o2,
  Return o1 ∈ (run validates acts p).2 →
  Return o2 ∈ (run validates acts p).2 →
  o1 = o2.
Proof.
  induction acts as [| a acts IH]; intros p o1 o2; cbn.
  - intros Hin. by apply elem_of_nil in Hin.
  - destruct a as [k v | k |]; cbn; [apply IH | apply IH |].
    destruct (get_settings validates p) as [p' [o | e]] eqn:Hget.
    + pose proof (run_cached acts p' o (get_settings_fills _ _ _ Hget)) as Hall.
      destruct (run validates acts p') as [p'' os]. cbn in *.
      assert (Hsame : ∀ x, Return x ∈ Return o :: os → x = o).
      { intros x [Hx | Hx]%elem_of_cons; [congruence |].
        rewrite Forall_forall in Hall. specialize (Hall _ Hx). congruence. }
      intros H1 H2. rewrite (Hsame _ H1), (Hsame _ H2). reflexivity.
    + apply get_settings_raise in Hget as ->.
      specialize (IH p o1 o2). destruct (run validates acts p) as [p'' os].
      cbn in *. intros H1 H2.
      apply IH; [by apply elem_of_cons in H1 as [? | ?] |
                 by apply elem_of_cons in H2 as [? | ?]].
Qed.

(** C7. In one process any two calls of [get_settings] that return, return
    the same object, whatever happens to the environment between them; and
    once the module has bound [settings], every later call returns that
    very object. *)
Theorem get_settings_singleton :
  (∀ acts p o1 o2,
     Return o1 ∈ (run validates acts p).2 →
     Return o2 ∈ (run validates acts p).2 →
     o1 = o2)
  ∧ (∀ acts p0 p1,
       bind_settings validates p0 = (p1, Return tt) →
       ∃ s, settings p1 = Some s
            ∧ Forall (λ res, res = Return s) (run validates acts p1).2).
Proof.
  split; [apply run_results_agree |].
  intros acts p0 p1. unfold bind_settings.
  destruct (get_settings validates p0) as [p' [o | e]] eqn:Hget; [| discriminate].
  intros [= <-]. exists o. split; [reflexivity |].
  apply run_cached. cbn. by eapply get_settings_fills.
Qed.

End Settings.

(** The module is imported with ENVIRONMENT=testing; the variable is then
    set to production and removed again, with a call after each change. *)
Lemma get_settings_singleton_witness :
  let accept := λ (_ : Config.settings_class) (_ : gmap string string), true in
  let p0 := Config.mkProcess {[ "ENVIRONMENT"%string := "Testing"%string ]} [] None None in
  let acts := [ Config.CallGetSettings;
                Config.Putenv "ENVIRONMENT" "production";
                Config.CallGetSettings;
                Config.Unsetenv "ENVIRONMENT";
                Config.CallGetSettings ] in
  let p1 := (Config.bind_settings accept p0).1 in
  Config.heap p1 = [Config.TestingSettings]
  ∧ (∃ s, Config.settings p1 = Some s
          ∧ Forall (λ res, res = Py.Return s) (Config.run accept acts p1).2)
  ∧ ∃ o1 o2, (Config.run accept acts p0).2 !! 0%nat = Some (Py.Return o1)
             ∧ (Config.run accept acts p0).2 !! 2%nat = Some (Py.Return o2)
             ∧ o1 = o2.
Proof.
  intros accept p0 acts p1. split; [reflexivity |]. split.
  - exact (proj2 (get_settings_singleton accept) acts p0 p1 eq_refl).
  - assert (H0 : (Config.run accept acts p0).2 !! 0%nat = Some (Py.Return 0%nat))
      by reflexivity.
    assert (H2 : (Config.run accept acts p0).2 !! 2%nat = Some (Py.Return 0%nat))
      by reflexivity.
    exists 0%nat, 0%nat. split; [exact H0 |]. split; [exact H2 |].
    exact (proj1 (get_settings_singleton accept) acts p0 0%nat 0%nat
             (list_elem_of_lookup_2 _ _ _ H0) (list_elem_of_lookup_2 _ _ _ H2)).
Defined.

(* ===================================================================== *)
(** * Serialisation for sync (shared.py) *)
(* ===================================================================== *)

Section SyncData.
Import Py Shared.
Context `{Formatters}.

(** The loop [result[name] = f(value)] over a list of columns. *)
Lemma assign_all_other (f : value → value) (l : list (string * value)) :
  ∀ (m : gmap string value) (c : string),
    c ∉ l.*1 →
    foldl (λ res cv, <[cv.1 := f cv.2]> res) m l !! c = m !! c.
Proof.
  induction l as [| [c' v'] l IH]; intros m c Hc; [reflexivity |].
  cbn in *. apply not_elem_of_cons in Hc as [Hne Hc].
  rewrite IH by exact Hc. by rewrite lookup_insert_ne.
Qed.

Lemma assign_all_lookup (f : value → value) (l : list (string * value)) :
  ∀ (m : gmap string value) (c : string) (v : value),
    NoDup l.*1 → (c, v) ∈ l →
    foldl (λ res cv, <[cv.1 := f cv.2]> res) m l !! c = Some (f v).
Proof.
  induction l as [| [c' v'] l IH]; intros m c v Hnd Hin.
  - by apply elem_of_nil in Hin.
  - cbn in *. apply NoDup_cons in Hnd as [Hc' Hnd].
    apply elem_of_cons in Hin as [[= -> ->] | Hin].
    + rewrite assign_all_other by exact Hc'. apply lookup_insert_eq.
    + by apply IH.
Qed.

Lemma base_columns_names r : (base_columns r).*1 = base_column_names.
Proof. reflexivity. Qed.

(** No two columns of a table share a name, as long as the subclass does
    not declare a column under an inherited name. *)
Lemma table_columns_NoDup (r : BaseModel) :
  (∀ c, c ∈ base_column_names → own_columns r !! c = None) →
  NoDup (table_columns r).*1.
Proof.
  intros Hown. unfold table_columns. rewrite fmap_app, base_columns_names.
  apply NoDup_app. split; [| split].
  - unfold base_column_names.
    apply (bool_decide_unpack (NoDup base_column_names)). vm_compute. exact I.
  - intros c Hc [[c' v] [Heq Hin]]%list_elem_of_fmap. cbn in Heq. subst c'.
    apply elem_of_map_to_list in Hin. rewrite (Hown c Hc) in Hin. discriminate.
  - apply NoDup_fst_map_to_list.
Qed.

End SyncData.

(* ===================================================================== *)
(** * The reconciler: idempotent create *)
(* ===================================================================== *)

Section ReconcilerFacts.
Import Py Reconciler.
Variable payload_valid : gmap string value → bool.
Variable pol : policy.

Lemma run_operations_cons dev now st op ops :
  run_operations payload_valid pol dev now st (op :: ops)
  = run_operations payload_valid pol dev now
      (step payload_valid pol dev now st op) ops.
Proof. reflexivity. Qed.

Lemma run_operations_app dev now st ops1 ops2 :
  run_operations payload_valid pol dev now st (ops1 ++ ops2)
  = run_operations payload_valid pol dev now
      (run_operations payload_valid pol dev now st ops1) ops2.
Proof. apply foldl_app. Qed.

(** One turn of the loop, by what the operation does to the store. *)
Lemma step_unfold dev now s t op :
  step payload_valid pol dev now (s, t) op
  = ((apply_operation payload_valid pol dev now op s).1,
     record_outcome (apply_operation payload_valid pol dev now op s).2 t).
Proof.
  unfold step. cbn. by destruct (apply_operation payload_valid pol dev now op s).
Qed.

Lemma find_by_offline_id_Some dev oid s r :
  find_by_offline_id dev oid s = Some r →
  created_as dev oid r ∧ ∃ k, s !! k = Some r.
Proof.
  unfold find_by_offline_id. intros Hh%head_Some_elem_of.
  apply list_elem_of_filter in Hh as [Hp Hin]. split; [exact Hp |].
  apply list_elem_of_fmap in Hin as [[k r'] [-> Hin]].
  exists k. by apply elem_of_map_to_list.
Qed.

Lemma find_by_offline_id_None dev oid s :
  find_by_offline_id dev oid s = None →
  ∀ k r, s !! k = Some r → ¬ created_as dev oid r.
Proof.
  unfold find_by_offline_id. intros Hh%head_None k r Hk Hp.
  apply (filter_nil_not_elem_of _ _ r Hh Hp).
  apply list_elem_of_fmap. exists (k, r). split; [reflexivity |].
  by apply elem_of_map_to_list.
Qed.

Lemma new_id_fresh (s : gmap string Rec) : s !! new_id s = None.
Proof. apply not_elem_of_dom. unfold new_id. apply is_fresh. Qed.

(** The records of the store that [dev] created under [oid]. *)
Lemma created_after_insert dev oid (s : gmap string Rec) k r :
  s !! k = None → find_by_offline_id dev oid s = None → created_as dev oid r →
  filter (created_as dev oid) (map_to_list (<[k := r]> s)).*2 ≡ₚ [r].
Proof.
  intros Hk Hnone Hr. rewrite map_to_list_insert by exact Hk.
  rewrite fmap_cons, filter_cons_True by exact Hr. cbn.
  apply head_None in Hnone. unfold find_by_offline_id in Hnone.
  by rewrite Hnone.
Qed.

Lemma step_duplicate dev now op s t r :
  op_kind op = create →
  find_by_offline_id dev (record_id_or_offline_id op) s = Some r →
  step payload_valid pol dev now (s, t) op
  = (s, mkTally (affected t) (conflicts t) (details t ++ [duplicate_ignored])).
Proof.
  intros Hk Hf. unfold step, apply_operation, apply_create. cbn.
  rewrite Hk, Hf. reflexivity.
Qed.

Lemma unique_insert_same_owner s k r r' :
  s !! k = Some r → device r' = device r → offline_id r' = offline_id r →
  offline_ids_unique s → offline_ids_unique (<[k := r']> s).
Proof.
  intros Hk Hd Ho Hu k1 k2 r1 r2 dev oid H1 H2 [Hd1 Ho1] [Hd2 Ho2].
  assert (Hback : ∀ k0 r0, <[k := r']> s !! k0 = Some r0 →
            device r0 = dev → offline_id r0 = Some oid →
            ∃ r0', s !! k0 = Some r0' ∧ created_as dev oid r0').
  { intros k0 r0 Hl Hd0 Ho0. destruct (decide (k = k0)) as [<- | Hne].
    - rewrite lookup_insert_eq in Hl. injection Hl as <-.
      exists r. split; [exact Hk |]. split; congruence.
    - rewrite lookup_insert_ne in Hl by exact Hne.
      exists r0. split; [exact Hl |]. by split. }
  destruct (Hback k1 r1 H1 Hd1 Ho1) as (r1' & H1' & Hc1).
  destruct (Hback k2 r2 H2 Hd2 Ho2) as (r2' & H2' & Hc2).
  exact (Hu k1 k2 r1' r2' dev oid H1' H2' Hc1 Hc2).
Qed.

Lemma unique_insert_new s k r dev oid :
  s !! k = None → find_by_offline_id dev oid s = None → created_as dev oid r →
  offline_ids_unique s → offline_ids_unique (<[k := r]> s).
Proof.
  intros Hk Hnone [Hd Ho] Hu k1 k2 r1 r2 dev' oid' H1 H2 Hc1 Hc2.
  destruct (decide (k = k1)) as [<- | Hne1], (decide (k = k2)) as [<- | Hne2];
    [reflexivity | | |].
  - rewrite lookup_insert_eq in H1. injection H1 as <-.
    rewrite lookup_insert_ne in H2 by exact Hne2.
    destruct Hc1 as [Hd1 Ho1]. assert (dev' = dev ∧ oid' = oid) as [-> ->].
    { split; congruence. }
    destruct (find_by_offline_id_None _ _ _ Hnone _ _ H2 Hc2).
  - rewrite lookup_insert_eq in H2. injection H2 as <-.
    rewrite lookup_insert_ne in H1 by exact Hne1.
    destruct Hc2 as [Hd2 Ho2]. assert (dev' = dev ∧ oid' = oid) as [-> ->].
    { split; congruence. }
    destruct (find_by_offline_id_None _ _ _ Hnone _ _ H1 Hc1).
  - rewrite lookup_insert_ne in H1 by exact Hne1.
    rewrite lookup_insert_ne in H2 by exact Hne2.
    exact (Hu _ _ _ _ _ _ H1 H2 Hc1 Hc2).
Qed.

Lemma resolve_same_owner r :
  device (resolve pol r) = device r ∧ offline_id (resolve pol r) = offline_id r.
Proof. unfold resolve. by destruct pol. Qed.

Lemma versioned_unique now op s change :
  (∀ v r, device (change v r) = device r ∧ offline_id (change v r) = offline_id r) →
  offline_ids_unique s →
  offline_ids_unique (versioned pol now op s change).1.
Proof.
  intros Hch Hu. unfold versioned.
  destruct (s !! record_id_or_offline_id op) as [r |] eqn:Hk; [| exact Hu].
  destruct (base_version op) as [base |]; [| exact Hu].
  repeat case_bool_decide; cbn; try exact Hu.
  - eapply unique_insert_same_owner; [exact Hk | apply Hch | apply Hch | exact Hu].
  - eapply unique_insert_same_owner;
      [exact Hk | apply resolve_same_owner | apply resolve_same_owner | exact Hu].
Qed.

Lemma apply_operation_unique dev now op s :
  offline_ids_unique s →
  offline_ids_unique (apply_operation payload_valid pol dev now op s).1.
Proof.
  intros Hu. unfold apply_operation. destruct (op_kind op).
  - unfold apply_create.
    destruct (find_by_offline_id _ _ s) eqn:Hf; [exact Hu |].
    destruct (payload_valid _); [| exact Hu]. cbn.
    eapply unique_insert_new; [apply new_id_fresh | exact Hf | by split | exact Hu].
  - destruct (payload_valid _); [| exact Hu].
    apply versioned_unique; [by intros v r | exact Hu].
  - apply versioned_unique; [by intros v r | exact Hu].
Qed.

Lemma run_unique dev now ops : ∀ s t,
  offline_ids_unique s →
  offline_ids_unique (run_operations payload_valid pol dev now (s, t) ops).1.
Proof.
  induction ops as [| op ops IH]; intros s t Hu; [exact Hu |].
  rewrite run_operations_cons, step_unfold.
  apply IH. by apply apply_operation_unique.
Qed.

(** C1. A create whose (device, offline id) already names a stored
    Record adds no Record: the loop leaves the store as it is, records
    [duplicate_ignored], which is not an error, and leaves
    [records_affected] and [conflicts_count] alone. Submitting one create
    twice stores exactly one Record for it, the second log being a
    success with nothing affected; and no batch ever gives a device two
    Records under one offline id. *)
Theorem idempotent_create :
  (∀ dev now op s t r,
     op_kind op = create →
     find_by_offline_id dev (record_id_or_offline_id op) s = Some r →
     step payload_valid pol dev now (s, t) op
     = (s, mkTally (affected t) (conflicts t) (details t ++ [duplicate_ignored]))
     ∧ is_error duplicate_ignored = false)
  ∧ (∀ w usr dev now1 now2 oid p,
       payload_valid p = true →
       find_by_offline_id dev oid (records w) = None →
       let op := mkOperation oid None p create in
       ∃ w1 log1 w2 log2,
         reconcile payload_valid pol w (mkSyncBatch usr dev now1 [op]) = inr (w1, log1)
         ∧ reconcile payload_valid pol w1 (mkSyncBatch usr dev now2 [op]) = inr (w2, log2)
         ∧ sync_details log1 = [applied] ∧ records_affected log1 = 1%nat
         ∧ records w2 = records w1
         ∧ length (filter (created_as dev oid) (map_to_list (records w2)).*2) = 1%nat
         ∧ sync_details log2 = [duplicate_ignored]
         ∧ status log2 = success
         ∧ records_affected log2 = 0%nat)
  ∧ (∀ w b w' log,
       offline_ids_unique (records w) →
       reconcile payload_valid pol w b = inr (w', log) →
       offline_ids_unique (records w')).
Proof.
  split; [| split].
  - intros dev now op s t r Hk Hf. split; [by eapply step_duplicate | reflexivity].
  - intros w usr dev now1 now2 oid p Hvalid Hnone op.
    set (r := mkRec (new_id (records w)) now1 synced (Some now1) dev (Some oid) p false).
    set (s1 := <[new_id (records w) := r]> (records w)).
    assert (Hr : created_as dev oid r) by (by split).
    assert (Hperm : filter (created_as dev oid) (map_to_list s1).*2 ≡ₚ [r]).
    { apply created_after_insert; [apply new_id_fresh | exact Hnone | exact Hr]. }
    assert (Hfind : ∃ r', find_by_offline_id dev oid s1 = Some r').
    { unfold find_by_offline_id.
      destruct (filter (created_as dev oid) (map_to_list s1).*2) as [| r' l] eqn:Hl.
      - by apply Permutation_nil_cons in Hperm.
      - by exists r'. }
    destruct Hfind as [r' Hfind].
    eexists (mkWorld s1 _), _, (mkWorld s1 _), _.
    split; [| split].
    + unfold reconcile. cbn. unfold step, apply_operation, apply_create. cbn.
      rewrite Hnone, Hvalid. cbn. reflexivity.
    + unfold reconcile. cbn. unfold step, apply_operation, apply_create. cbn.
      fold s1. rewrite Hfind. cbn. reflexivity.
    + cbn. repeat split. by rewrite Hperm.
  - intros w b w' log Hu. unfold reconcile.
    destruct (well_formed b); [| discriminate].
    pose proof (run_unique (device_id b) (submitted_at b) (operations b)
                  (records w) (mkTally 0 0 []) Hu) as Hu'.
    destruct (run_operations _ _ _ _ _ _) as [s' t]. intros [= <- _]. exact Hu'.
Qed.

End ReconcilerFacts.

(* ===================================================================== *)
(** * The reconciler: versions only go forward *)
(* ===================================================================== *)

Section Monotonic.
Import Py Reconciler.
Variable payload_valid : gmap string value → bool.
Variable pol : policy.

Lemma never_regresses_refl s : never_regresses s s.
Proof. intros k r Hk. exists r. by repeat split. Qed.

Lemma never_regresses_trans s1 s2 s3 :
  never_regresses s1 s2 → never_regresses s2 s3 → never_regresses s1 s3.
Proof.
  intros H12 H23 k r Hk.
  destruct (H12 k r Hk) as (r2 & Hk2 & Hle2 & Heq2).
  destruct (H23 k r2 Hk2) as (r3 & Hk3 & Hle3 & Heq3).
  exists r3. split; [exact Hk3 |]. split; [lia |].
  intros Hv. assert (updated_at r2 = updated_at r) as Hv2 by lia.
  assert (updated_at r3 = updated_at r2) as Hv3 by lia.
  destruct (Heq2 Hv2) as [Hp2 Hd2]. destruct (Heq3 Hv3) as [Hp3 Hd3].
  split; congruence.
Qed.

Lemma never_regresses_insert s k r r' :
  s !! k = Some r →
  updated_at r ≤ updated_at r' →
  (updated_at r' = updated_at r →
   payload r' = payload r ∧ deleted r' = deleted r) →
  never_regresses s (<[k := r']> s).
Proof.
  intros Hk Hle Heq k0 r0 Hk0. destruct (decide (k = k0)) as [<- | Hne].
  - rewrite Hk in Hk0. injection Hk0 as <-. exists r'.
    by rewrite lookup_insert_eq.
  - exists r0. rewrite lookup_insert_ne by exact Hne. by repeat split.
Qed.

Lemma never_regresses_insert_new (s : gmap string Rec) k r :
  s !! k = None → never_regresses s (<[k := r]> s).
Proof.
  intros Hk k0 r0 Hk0. exists r0.
  rewrite lookup_insert_ne by congruence. by repeat split.
Qed.

Lemma bump_later now v : v < bump now v.
Proof. unfold bump. lia. Qed.

Lemma resolve_keeps r :
  updated_at (resolve pol r) = updated_at r
  ∧ payload (resolve pol r) = payload r
  ∧ deleted (resolve pol r) = deleted r.
Proof. unfold resolve. by destruct pol. Qed.

Lemma versioned_never_regresses now op s change :
  (∀ v r, updated_at (change v r) = v) →
  never_regresses s (versioned pol now op s change).1.
Proof.
  intros Hch. unfold versioned.
  destruct (s !! record_id_or_offline_id op) as [r |] eqn:Hk;
    [| apply never_regresses_refl].
  destruct (base_version op) as [base |]; [| apply never_regresses_refl].
  repeat case_bool_decide; cbn; try apply never_regresses_refl.
  - pose proof (bump_later now (updated_at r)) as Hlt.
    apply (never_regresses_insert s _ r); [exact Hk | |]; rewrite Hch; lia.
  - destruct (resolve_keeps r) as (Hv & Hp & Hd).
    apply (never_regresses_insert s _ r); [exact Hk | lia | done].
Qed.

Lemma apply_operation_never_regresses dev now op s :
  never_regresses s (apply_operation payload_valid pol dev now op s).1.
Proof.
  unfold apply_operation. destruct (op_kind op).
  - unfold apply_create. destruct (find_by_offline_id _ _ s);
      [apply never_regresses_refl |].
    destruct (payload_valid _); [| apply never_regresses_refl]. cbn.
    apply never_regresses_insert_new.
    apply not_elem_of_dom. unfold new_id. apply is_fresh.
  - destruct (payload_valid _); [| apply never_regresses_refl].
    by apply versioned_never_regresses.
  - by apply versioned_never_regresses.
Qed.

Lemma run_never_regresses dev now ops : ∀ s t,
  never_regresses s (run_operations payload_valid pol dev now (s, t) ops).1.
Proof.
  induction ops as [| op ops IH]; intros s t; [apply never_regresses_refl |].
  rewrite run_operations_cons, step_unfold.
  eapply never_regresses_trans;
    [apply apply_operation_never_regresses | apply IH].
Qed.

(** An update or delete on an older [base_version] leaves the store as
    it is, whatever its payload. *)
Lemma stale_base_keeps_store dev now op s r base :
  op_kind op ≠ create →
  s !! record_id_or_offline_id op = Some r →
  base_version op = Some base →
  base < updated_at r →
  (apply_operation payload_valid pol dev now op s).1 = s.
Proof.
  intros Hk Hr Hb Hlt. unfold apply_operation, versioned. rewrite Hr, Hb.
  rewrite bool_decide_eq_false_2 by lia.
  rewrite bool_decide_eq_true_2 by lia.
  destruct (op_kind op); [done | | done].
  by destruct (payload_valid _).
Qed.

(** With a payload that passes validation, its outcome is
    [stale_ignored]. *)
Lemma stale_base_is_ignored dev now op s r base :
  op_kind op ≠ create →
  (op_kind op = update → payload_valid (op_payload op) = true) →
  s !! record_id_or_offline_id op = Some r →
  base_version op = Some base →
  base < updated_at r →
  apply_operation payload_valid pol dev now op s = (s, stale_ignored).
Proof.
  intros Hk Hvalid Hr Hb Hlt. unfold apply_operation, versioned. rewrite Hr, Hb.
  rewrite bool_decide_eq_false_2 by lia.
  rewrite bool_decide_eq_true_2 by lia.
  destruct (op_kind op) eqn:Hkind; [done | | done].
  by rewrite Hvalid.
Qed.


End Monotonic.

(* ===================================================================== *)
(** * The reconciler: a failed operation does not stop the batch *)
(* ===================================================================== *)

Section PartialFailure.
Import Py Reconciler.
Variable payload_valid : gmap string value → bool.
Variable pol : policy.

(** An operation that ends in an error has not touched the store. *)
Lemma error_leaves_store dev now op s e :
  (apply_operation payload_valid pol dev now op s).2 = error e →
  (apply_operation payload_valid pol dev now op s).1 = s.
Proof.
  unfold apply_operation, apply_create, versioned.
  repeat (case_match; cbn; try done); repeat case_bool_decide; done.
Qed.

(** The store after a run does not depend on the totals so far. *)
Lemma run_store_indep dev now ops : ∀ s t t',
  (run_operations payload_valid pol dev now (s, t) ops).1 = (run_operations payload_valid pol dev now (s, t') ops).1.
Proof.
  induction ops as [| op ops IH]; intros s t t'; [reflexivity |].
  rewrite !run_operations_cons, !step_unfold. apply IH.
Qed.

(** Every operation adds one entry, in order. *)
Lemma run_details dev now ops : ∀ s t,
  ∃ entries,
    details (run_operations payload_valid pol dev now (s, t) ops).2 = details t ++ entries
    ∧ length entries = length ops.
Proof.
  induction ops as [| op ops IH]; intros s t.
  - exists []. by rewrite app_nil_r.
  - rewrite run_operations_cons, step_unfold.
    destruct (apply_operation payload_valid pol dev now op s) as [s' o].
    destruct (IH s' (record_outcome o t)) as (entries & Hd & Hlen).
    exists (o :: entries). split; [| cbn; by rewrite Hlen].
    cbn in *. rewrite Hd. cbn. by rewrite <- app_assoc.
Qed.

Lemma record_outcome_counted o t : counted t → counted (record_outcome o t).
Proof.
  intros [Ha Hc]. unfold counted, record_outcome. cbn.
  rewrite !filter_app, !length_app, <- Ha, <- Hc.
  destruct o; split; cbn; case_decide; try congruence; cbn; lia.
Qed.

Lemma run_counted dev now ops : ∀ s t,
  counted t → counted (run_operations payload_valid pol dev now (s, t) ops).2.
Proof.
  induction ops as [| op ops IH]; intros s t Ht; [exact Ht |].
  rewrite run_operations_cons, step_unfold.
  apply IH. by apply record_outcome_counted.
Qed.

Lemma status_of_partial ds o1 o2 :
  o1 ∈ ds → is_error o1 = true →
  o2 ∈ ds → is_error o2 = false →
  status_of ds = partial.
Proof.
  intros H1 He1 H2 He2. unfold status_of.
  destruct (forallb _ ds) eqn:Hall.
  - rewrite forallb_forall in Hall.
    specialize (Hall o1 (proj1 (list_elem_of_In _ _) H1)).
    by rewrite He1 in Hall.
  - assert (existsb (λ o, negb (is_error o)) ds = true) as ->; [| reflexivity].
    apply existsb_exists. exists o2.
    split; [by apply list_elem_of_In | by rewrite He2].
Qed.

(** C3. A well-formed batch always runs to its end and yields one SyncLog
    with one entry per operation. An update or delete of a Record that is
    not in the store, and an update whose payload is invalid, become
    [error] entries and leave the store alone, as does a create with an
    invalid payload; the entry of a failed operation sits at the
    operation's place, and the operations after it run as if it had not
    been there. A log with both a failed
    and a succeeded operation has status [partial], and
    [records_affected] is the number of [applied] entries. *)
Theorem partial_failure_batch :
  (∀ w b,
     well_formed b = true →
     ∃ w' log,
       reconcile payload_valid pol w b = inr (w', log)
       ∧ sync_logs w' = sync_logs w ++ [log]
       ∧ length (sync_details log) = length (operations b))
  ∧ (∀ dev now op s,
       op_kind op ≠ create →
       (op_kind op = update → payload_valid (op_payload op) = true) →
       s !! record_id_or_offline_id op = None →
       apply_operation payload_valid pol dev now op s = (s, error RecordNotFound))
  ∧ (∀ dev now op s,
       op_kind op = update
       ∨ (op_kind op = create
          ∧ find_by_offline_id dev (record_id_or_offline_id op) s = None) →
       payload_valid (op_payload op) = false →
       apply_operation payload_valid pol dev now op s = (s, error ValidationFailure))
  ∧ (∀ dev now before op after s t e,
       (apply_operation payload_valid pol dev now op
          (run_operations payload_valid pol dev now (s, t) before).1).2 = error e →
       run_operations payload_valid pol dev now (s, t) (before ++ op :: after)
       = run_operations payload_valid pol dev now
           ((run_operations payload_valid pol dev now (s, t) before).1,
            record_outcome (error e)
              (run_operations payload_valid pol dev now (s, t) before).2) after
       ∧ (run_operations payload_valid pol dev now (s, t) (before ++ op :: after)).1
         = (run_operations payload_valid pol dev now (s, t) (before ++ after)).1
       ∧ ∃ entries,
           details (run_operations payload_valid pol dev now (s, t)
                      (before ++ op :: after)).2
           = details (run_operations payload_valid pol dev now (s, t) before).2
             ++ error e :: entries
           ∧ length entries = length after)
  ∧ (∀ w b w' log o1 o2,
       reconcile payload_valid pol w b = inr (w', log) →
       o1 ∈ sync_details log → is_error o1 = true →
       o2 ∈ sync_details log → is_error o2 = false →
       status log = partial)
  ∧ (∀ w b w' log,
       reconcile payload_valid pol w b = inr (w', log) →
       records_affected log
       = length (filter (λ o, o = applied) (sync_details log))).
Proof.
  split; [| split; [| split; [| split; [| split]]]].
  - intros w b Hwf. unfold reconcile. rewrite Hwf.
    destruct (run_details (device_id b) (submitted_at b) (operations b)
                (records w) (mkTally 0 0 [])) as (entries & Hd & Hlen).
    destruct (run_operations _ _ _ _ _ _) as [s' t]. cbn in Hd.
    eexists _, _. split; [reflexivity |]. cbn. split; [reflexivity |].
    by rewrite Hd.
  - intros dev now op s Hk Hvalid Hnone. unfold apply_operation, versioned.
    destruct (op_kind op) eqn:Hkind; [done | | by rewrite Hnone].
    rewrite Hvalid by reflexivity. by rewrite Hnone.
  - intros dev now op s [Hk | [Hk Hnone]] Hinvalid;
      unfold apply_operation, apply_create; rewrite Hk.
    + by rewrite Hinvalid.
    + by rewrite Hnone, Hinvalid.
  - intros dev now before op after s t e Herr.
    pose proof (error_leaves_store dev now op _ e Herr) as Hsame.
    assert (Hstep : step payload_valid pol dev now (run_operations payload_valid pol dev now (s, t) before) op
                    = ((run_operations payload_valid pol dev now (s, t) before).1,
                       record_outcome (error e) (run_operations payload_valid pol dev now (s, t) before).2)).
    { destruct (run_operations payload_valid pol dev now (s, t) before)
        as [s1 t1] eqn:Hrun. cbn in *.
      rewrite step_unfold. by rewrite Hsame, Herr. }
    split; [| split].
    + by rewrite run_operations_app, run_operations_cons, Hstep.
    + rewrite !run_operations_app, run_operations_cons, Hstep.
      destruct (run_operations payload_valid pol dev now (s, t) before) as [s1 t1].
      cbn. apply run_store_indep.
    + rewrite run_operations_app, run_operations_cons, Hstep.
      destruct (run_operations payload_valid pol dev now (s, t) before) as [s1 t1].
      destruct (run_details dev now after s1 (record_outcome (error e) t1))
        as (entries & Hd & Hlen).
      exists entries. split; [| exact Hlen].
      cbn in *. rewrite Hd. by rewrite <- app_assoc.
  - intros w b w' log o1 o2. unfold reconcile.
    destruct (well_formed b); [| discriminate].
    destruct (run_operations _ _ _ _ _ _) as [s' t]. intros [= <- <-]. cbn.
    apply status_of_partial.
  - intros w b w' log. unfold reconcile.
    destruct (well_formed b); [| discriminate].
    pose proof (run_counted (device_id b) (submitted_at b) (operations b)
                  (records w) (mkTally 0 0 []) (conj eq_refl eq_refl)) as [Ha _].
    destruct (run_operations _ _ _ _ _ _) as [s' t]. intros [= <- <-]. exact Ha.
Qed.

End PartialFailure.

(* ===================================================================== *)
(** * Worked examples *)
(* ===================================================================== *)

Section Examples.
Import Py Fixtures.

Import Reconciler.

(** A farm created offline as "o1" and submitted twice, the second time
    ten time units later. *)
Lemma idempotent_create_witness :
  accept_all (named "Farm A") = true
  ∧ find_by_offline_id "dev1" "o1" (records (mkWorld ∅ [])) = None
  ∧ ∃ w1 log1 w2 log2,
      reconcile accept_all last_writer_wins (mkWorld ∅ [])
        (mkSyncBatch "u1" "dev1" 10 [mkOperation "o1" None (named "Farm A") create])
      = inr (w1, log1)
      ∧ reconcile accept_all last_writer_wins w1
          (mkSyncBatch "u1" "dev1" 20 [mkOperation "o1" None (named "Farm A") create])
        = inr (w2, log2)
      ∧ records w2 = records w1
      ∧ sync_details log2 = [duplicate_ignored]
      ∧ records_affected log2 = 0%nat
      ∧ offline_ids_unique (records w2)
      ∧ step accept_all last_writer_wins "dev1" 10
          (records one_farm, mkTally 3 1 [applied]) create_again
        = (records one_farm, mkTally 3 1 ([applied] ++ [duplicate_ignored])).
Proof.
  assert (Hempty : offline_ids_unique (records (mkWorld ∅ []))).
  { intros k1 k2 r1 r2 dev oid Hk1. cbn in Hk1.
    rewrite lookup_empty in Hk1. discriminate. }
  assert (Hdup : find_by_offline_id "dev1" (record_id_or_offline_id create_again)
                   (records one_farm) = Some farm_v2) by (vm_compute; reflexivity).
  assert (Hvalid : accept_all (named "Farm A") = true) by reflexivity.
  assert (Hnone : find_by_offline_id "dev1" "o1" (records (mkWorld ∅ [])) = None)
    by (vm_compute; reflexivity).
  split; [exact Hvalid |]. split; [exact Hnone |].
  destruct (proj1 (proj2 (idempotent_create accept_all last_writer_wins))
              (mkWorld ∅ []) "u1"%string "dev1"%string 10 20 "o1"%string
              (named "Farm A") Hvalid Hnone)
    as (w1 & log1 & w2 & log2 & H1 & H2 & _ & _ & Hsame & _ & Hd & _ & Ha).
  exists w1, log1, w2, log2.
  split; [exact H1 |]. split; [exact H2 |]. split; [exact Hsame |].
  split; [exact Hd |]. split; [exact Ha |]. split.
  - eapply (proj2 (proj2 (idempotent_create accept_all last_writer_wins)));
      [| exact H2].
    eapply (proj2 (proj2 (idempotent_create accept_all last_writer_wins)));
      [exact Hempty | exact H1].
  - exact (proj1 (proj1 (idempotent_create accept_all last_writer_wins)
             "dev1"%string 10 create_again (records one_farm)
             (mkTally 3 1 [applied]) farm_v2 eq_refl Hdup)).
Defined.


(** The stale update of "r1" as a batch of its own: under either policy
    the log is a success with the one entry [stale_ignored], nothing is
    counted, and "r1" keeps payload and version. An update made from a
    version ahead of the store is a conflict, which the manual policy
    marks on the Record. *)
Example stale_batch_is_dropped :
  (∀ pol, ∃ log,
     reconcile accept_all pol one_farm stale_batch
     = inr (mkWorld (records one_farm) [log], log)
     ∧ log = mkSyncLog success 0 0 [stale_ignored])
  ∧ (apply_operation accept_all manual "dev1" 10 ahead_update (records one_farm)).2
    = conflict
  ∧ (apply_operation accept_all manual "dev1" 10 ahead_update (records one_farm)).1
      !! "r1"
    = Some (with_status in_conflict farm_v2).
Proof.
  split; [| split].
  - intros pol. eexists. split; [| reflexivity].
    destruct pol; vm_compute; reflexivity.
  - vm_compute. reflexivity.
  - vm_compute. reflexivity.
Qed.

(** The batch of three of the specification's section 8. *)
Lemma partial_failure_batch_witness :
  well_formed mixed_batch = true
  ∧ ∃ w' log,
      reconcile accept_all last_writer_wins one_farm mixed_batch = inr (w', log)
      ∧ sync_logs w' = sync_logs one_farm ++ [log]
      ∧ length (sync_details log) = 3%nat
      ∧ status log = partial
      ∧ records_affected log = 2%nat
      ∧ (run_operations accept_all last_writer_wins "dev1" 10
           (records one_farm, mkTally 0 0 []) ([update_r1] ++ update_missing :: [create_o1])).1
        = (run_operations accept_all last_writer_wins "dev1" 10
             (records one_farm, mkTally 0 0 []) ([update_r1] ++ [create_o1])).1.
Proof.
  assert (Hwf : well_formed mixed_batch = true) by (vm_compute; reflexivity).
  assert (Herr : (apply_operation accept_all last_writer_wins "dev1" 10 update_missing
                    (run_operations accept_all last_writer_wins "dev1" 10
                       (records one_farm, mkTally 0 0 []) [update_r1]).1).2
                 = error RecordNotFound) by (vm_compute; reflexivity).
  split; [exact Hwf |].
  destruct (proj1 (partial_failure_batch accept_all last_writer_wins)
              one_farm mixed_batch Hwf)
    as (w' & log & Hrec & Hlogs & Hlen).
  exists w', log. split; [exact Hrec |]. split; [exact Hlogs |].
  split; [exact Hlen |].
  assert (Hd : sync_details log = [applied; error RecordNotFound; applied]).
  { vm_compute in Hrec. by injection Hrec as <- <-. }
  split.
  - apply (proj1 (proj2 (proj2 (proj2 (proj2
             (partial_failure_batch accept_all last_writer_wins)))))
             one_farm mixed_batch w' log (error RecordNotFound) applied Hrec);
      rewrite ?Hd; try reflexivity;
      [apply list_elem_of_further, list_elem_of_here | apply list_elem_of_here].
  - split.
    + rewrite (proj2 (proj2 (proj2 (proj2 (proj2
                 (partial_failure_batch accept_all last_writer_wins)))))
                 one_farm mixed_batch w' log Hrec).
      rewrite Hd. vm_compute. reflexivity.
    + exact (proj1 (proj2
               (proj1 (proj2 (proj2 (proj2
                  (partial_failure_batch accept_all last_writer_wins))))
                  "dev1"%string 10 [update_r1] update_missing [create_o1]
                  (records one_farm) (mkTally 0 0 []) RecordNotFound Herr))).
Defined.

(** Under a schema that wants a name, an update without one is an error
    entry between two applied operations, and "r1" keeps its payload. *)
Example invalid_payload_is_recorded :
  ∃ w' log,
    reconcile needs_name last_writer_wins one_farm
      (mkSyncBatch "u1" "dev1" 10 [create_o1; update_unnamed; update_r1])
    = inr (w', log)
    ∧ sync_details log = [applied; error ValidationFailure; applied]
    ∧ status log = partial
    ∧ records_affected log = 2%nat
    ∧ payload <$> records w' !! "r1" = Some (named "Farm B").
Proof.
  eexists _, _. split; [vm_compute; reflexivity |].
  repeat (split; [reflexivity |]). vm_compute. reflexivity.
Qed.

End Examples.

(* ===================================================================== *)
(** * More on the settings (config.py) *)
(* ===================================================================== *)

Section SettingsClass.
Import Py Config.
Variable validates : settings_class → gmap string string → bool.

Lemma ascii_lower_idem c : ascii_lower (ascii_lower c) = ascii_lower c.
Proof. destruct c as [[] [] [] [] [] [] [] []]; reflexivity. Qed.

Lemma lower_idem s : lower (lower s) = lower s.
Proof.
  induction s as [| c s IH]; [reflexivity |].
  cbn. by rewrite ascii_lower_idem, IH.
Qed.

(** X1. The settings class depends on ENVIRONMENT only up to the case of
    its letters: a value and its lowered form select the same class, and
    an unset variable selects the development settings. *)
Theorem select_class_ignores_case (p : process) (v : string) :
  select_class (set_environ (<["ENVIRONMENT" := v]> (environ p)) p)
  = select_class (set_environ (<["ENVIRONMENT" := lower v]> (environ p)) p)
  ∧ select_class (set_environ (delete "ENVIRONMENT" (environ p)) p)
    = DevelopmentSettings.
Proof.
  unfold select_class. cbn. rewrite !lookup_insert_eq, lookup_delete_eq. cbn.
  by rewrite lower_idem.
Qed.

(** With a filled cache no call builds an object. *)
Lemma run_cached_heap acts : ∀ p o,
  cache p = Some o → heap (run validates acts p).1 = heap p.
Proof.
  induction acts as [| a acts IH]; intros p o Hc; [reflexivity |].
  destruct a as [k v | k |]; cbn.
  - by rewrite (IH _ o).
  - by rewrite (IH _ o).
  - rewrite (get_settings_hit validates p o Hc).
    specialize (IH p o Hc). by destruct (run validates acts p).
Qed.

Lemma run_builds_at_most_one acts : ∀ p,
  (length (heap (run validates acts p).1) ≤ length (heap p) + 1)%nat.
Proof.
  induction acts as [| a acts IH]; intros p; [cbn; lia |].
  destruct a as [k v | k |]; cbn;
    [apply (IH (set_environ _ p)) | apply (IH (set_environ _ p)) |].
  destruct (get_settings validates p) as [p' [o | e]] eqn:Hget.
  - pose proof (run_cached_heap acts p' o (get_settings_fills _ _ _ _ Hget)) as Hh.
    destruct (run validates acts p') as [p'' os]. cbn in *. rewrite Hh.
    revert Hget. unfold get_settings, get_settings_body.
    destruct (cache p); [intros [= <- _]; lia |].
    destruct (validates _ _); intros [= <- _]; cbn.
    rewrite length_app. cbn. lia.
  - apply get_settings_raise in Hget as ->.
    specialize (IH p). by destruct (run validates acts p).
Qed.

(** X2. The settings are those of the first call that succeeds: it
    builds one object of the class the environment selects at that
    moment, and whatever is done to the environment afterwards every
    later call returns that object and builds nothing. Over any run at
    most one object is built. *)
Theorem settings_fixed_by_first_call :
  (∀ acts p,
     cache p = None →
     validates (select_class p) (environ p) = true →
     heap (run validates (CallGetSettings :: acts) p).1
     = heap p ++ [select_class p]
     ∧ Forall (λ res, res = Return (length (heap p)))
         (run validates (CallGetSettings :: acts) p).2)
  ∧ (∀ acts p,
       (length (heap (run validates acts p).1) ≤ length (heap p) + 1)%nat).
Proof.
  split; [| intros acts p; apply run_builds_at_most_one].
  intros acts p Hc Hv. cbn. unfold get_settings, get_settings_body.
  rewrite Hc, Hv.
  set (p' := mkProcess _ _ _ _).
  pose proof (run_cached_heap acts p' (length (heap p)) eq_refl) as Hh.
  pose proof (run_cached validates acts p' (length (heap p)) eq_refl) as Hall.
  destruct (run validates acts p') as [p'' os]. cbn in *.
  split; [exact Hh | by constructor].
Qed.

End SettingsClass.

(** ENVIRONMENT is "Production" at the first call and "testing" at the
    second. *)
Lemma settings_fixed_by_first_call_witness :
  let accept := λ (_ : Config.settings_class) (_ : gmap string string), true in
  let p := Config.mkProcess {[ "ENVIRONMENT"%string := "Production"%string ]} []
             None None in
  let acts := [ Config.Putenv "ENVIRONMENT" "testing"; Config.CallGetSettings ] in
  Config.cache p = None
  ∧ accept (Config.select_class p) (Config.environ p) = true
  ∧ Config.heap (Config.run accept (Config.CallGetSettings :: acts) p).1
    = [Config.ProductionSettings].
Proof.
  intros accept p acts. split; [reflexivity |]. split; [reflexivity |].
  exact (proj1 (proj1 (settings_fixed_by_first_call accept) acts p eq_refl eq_refl)).
Defined.

(* ===================================================================== *)
(** * The list validators (config.py) *)
(* ===================================================================== *)

Section ValidatorFacts.
Import Py Validators.
Import (notations) Stdlib.Strings.Ascii.
Variable strip : string → string.

Lemma split_length sep s : length (split sep s) = S (count sep s).
Proof.
  induction s as [| c s IH]; [reflexivity |].
  cbn. case_bool_decide; cbn; [by rewrite IH |].
  destruct (split sep s) as [| item items]; [discriminate |].
  cbn in *. exact IH.
Qed.

Lemma join_split sep s : join sep (split sep s) = s.
Proof.
  induction s as [| c s IH]; [reflexivity |].
  pose proof (split_length sep s) as Hlen.
  cbn. case_bool_decide as Hc.
  - subst c. destruct (split sep s) as [| item items] eqn:Hs; [discriminate |].
    cbn. cbn in IH. by rewrite IH.
  - destruct (split sep s) as [| item items] eqn:Hs; [discriminate |].
    cbn in *. destruct items; cbn; by rewrite <- IH.
Qed.

Lemma split_pieces sep s : Forall (λ item, count sep item = 0%nat) (split sep s).
Proof.
  induction s as [| c s IH]; [by repeat constructor |].
  cbn. case_bool_decide as Hc.
  - by constructor.
  - destruct (split sep s) as [| item items]; [by repeat constructor; cbn;
      rewrite bool_decide_eq_false_2 |].
    apply Forall_cons in IH as [Hitem Hitems]. constructor; [| exact Hitems].
    cbn. by rewrite bool_decide_eq_false_2.
Qed.

(** X3. What the three validators do with a raw value. A string that
    does not start with a bracket becomes a list with one item more than
    it has commas, so never an empty list: the empty string gives one
    item. A list, and a string that starts with a bracket, are passed on
    unchanged, and every other value is refused with itself as the
    argument of [ValueError]. *)
Theorem assemble_edges (f : value → validated) :
  f ∈ [ assemble_cors_origins strip; assemble_allowed_hosts strip;
        assemble_languages strip ] →
  (∀ s, startswith_bracket s = false →
        ∃ items, f (VStr s) = Accepted (VList items)
                 ∧ length items = S (count "," s))
  ∧ (∀ s, startswith_bracket s = true → f (VStr s) = Accepted (VStr s))
  ∧ (∀ l, f (VList l) = Accepted (VList l))
  ∧ (∀ v, (∀ s, v ≠ VStr s) → (∀ l, v ≠ VList l) → f v = ValueError v).
Proof.
  intros Hf.
  assert (f = assemble strip) as ->.
  { repeat (apply elem_of_cons in Hf as [-> | Hf]; [reflexivity |]).
    by apply elem_of_nil in Hf. }
  split; [| split; [| split]].
  - intros s Hs. unfold assemble. rewrite Hs. cbn. eexists. split; [reflexivity |].
    by rewrite length_fmap, split_length.
  - intros s Hs. unfold assemble. by rewrite Hs.
  - reflexivity.
  - intros v Hstr Hlist. destruct v; try reflexivity.
    + by destruct (Hstr s).
    + by destruct (Hlist l).
Qed.

(** X4. Nothing is lost between the commas: when stripping leaves the
    pieces as they are, the items of the result hold no comma and,
    joined by commas, give the raw string back. *)
Theorem assemble_round_trip (s : string) :
  startswith_bracket s = false →
  Forall (λ item, strip item = item) (split "," s) →
  ∃ items,
    assemble_cors_origins strip (VStr s) = Accepted (VList (VStr <$> items))
    ∧ assemble_allowed_hosts strip (VStr s) = Accepted (VList (VStr <$> items))
    ∧ assemble_languages strip (VStr s) = Accepted (VList (VStr <$> items))
    ∧ join "," items = s
    ∧ Forall (λ item, count "," item = 0%nat) items.
Proof.
  intros Hs Hstrip. exists (split "," s).
  assert (Heq : (λ i, VStr (strip i)) <$> split "," s = VStr <$> split "," s).
  { apply Forall_fmap_ext_1. eapply Forall_impl; [exact Hstrip |].
    cbn. by intros item ->. }
  unfold assemble_cors_origins, assemble_allowed_hosts, assemble_languages,
    assemble. rewrite Hs. cbn. rewrite Heq.
  repeat (split; [reflexivity |]).
  split; [apply join_split | apply split_pieces].
Qed.

End ValidatorFacts.

(** CORS_ORIGINS set to two origins, with a stripper that leaves text
    alone; and the empty string. *)
Lemma assemble_edges_witness :
  let keep := λ s : string, s in
  Validators.assemble_cors_origins keep
  ∈ [ Validators.assemble_cors_origins keep; Validators.assemble_allowed_hosts keep;
      Validators.assemble_languages keep ]
  ∧ Validators.startswith_bracket "" = false
  ∧ ∃ items, Validators.assemble_cors_origins keep (Py.VStr "")
             = Validators.Accepted (Py.VList items)
             ∧ length items = 1%nat.
Proof.
  intros keep.
  assert (Hin : Validators.assemble_cors_origins keep
                ∈ [ Validators.assemble_cors_origins keep;
                    Validators.assemble_allowed_hosts keep;
                    Validators.assemble_languages keep ])
    by apply list_elem_of_here.
  split; [exact Hin |]. split; [reflexivity |].
  exact (proj1 (assemble_edges keep _ Hin) "" eq_refl).
Defined.

Lemma assemble_round_trip_witness :
  let keep := λ s : string, s in
  let raw := "http://a.africa,http://b.africa"%string in
  Validators.startswith_bracket raw = false
  ∧ Forall (λ item, keep item = item)
      (Validators.split (Ascii.ascii_of_N 44) raw)
  ∧ ∃ items,
      Validators.assemble_cors_origins keep (Py.VStr raw)
      = Validators.Accepted (Py.VList (Py.VStr <$> items))
      ∧ Validators.join (Ascii.ascii_of_N 44) items = raw.
Proof.
  intros keep raw.
  assert (Hb : Validators.startswith_bracket raw = false) by reflexivity.
  assert (Hk : Forall (λ item, keep item = item)
                 (Validators.split (Ascii.ascii_of_N 44) raw)).
  { apply Forall_forall. by intros item _. }
  split; [exact Hb |]. split; [exact Hk |].
  destruct (assemble_round_trip keep raw Hb Hk) as (items & H1 & _ & _ & Hj & _).
  exists items. split; [exact H1 | exact Hj].
Defined.

(* ===================================================================== *)
(** * AfricanAgriculturalData and the tables it reads (database.py, config.py) *)
(* ===================================================================== *)

Section AgriculturalFacts.
Import Py ConfigTables AgriculturalData.

(** X5. [get_crop_calendar] returns no calendar for any country and
    region, not even its default one: [database.py] never binds
    [AFRICAN_COUNTRIES], so every call raises [NameError] for it. *)
Theorem get_crop_calendar_always_raises (country_code region : string) :
  get_crop_calendar country_code region = Raise (NameError "AFRICAN_COUNTRIES").
Proof.
  unfold get_crop_calendar, load_name.
  rewrite (bool_decide_eq_true_2 ("CROP_CALENDARS" ∈ ConfigTables.module_names))
    by (apply (bool_decide_unpack (_ ∈ _)); vm_compute; exact I).
  rewrite bool_decide_eq_false_2; [reflexivity |].
  apply (bool_decide_unpack (_ ∉ _)). vm_compute. exact I.
Qed.

(** Every default region has its crop calendar. *)
Lemma region_has_calendar (r : string) :
  r ∈ AFRICAN_REGIONS → is_Some (CROP_CALENDARS !! r).
Proof.
  intros Hr. apply not_eq_None_Some. unfold CROP_CALENDARS.
  intros Hno%not_elem_of_list_to_map. apply Hno.
  cbn [fmap list_fmap fst]. unfold AFRICAN_REGIONS in Hr.
  repeat (apply elem_of_cons in Hr as [-> | Hr];
          [apply (bool_decide_unpack (_ ∈ _)); vm_compute; exact I |]).
  by apply elem_of_nil in Hr.
Qed.

(** X6. The tables of [config.py] fit together: the region of every
    country has a crop calendar and is one of the default
    [AFRICAN_REGIONS], its languages are among the default
    [SUPPORTED_LANGUAGES] and its mobile money providers among the
    default [MOBILE_MONEY_PROVIDERS]. *)
Theorem country_table_consistent :
  map_Forall
    (λ _ c,
       is_Some (CROP_CALENDARS !! region c)
       ∧ region c ∈ AFRICAN_REGIONS
       ∧ Forall (λ l, l ∈ SUPPORTED_LANGUAGES) (languages c)
       ∧ Forall (λ m, m ∈ MOBILE_MONEY_PROVIDERS) (mobile_money c))
    AFRICAN_COUNTRIES.
Proof.
  intros code c Hc. unfold AFRICAN_COUNTRIES in Hc.
  apply elem_of_list_to_map_2 in Hc.
  assert (Hrest : region c ∈ AFRICAN_REGIONS
                  ∧ Forall (λ l, l ∈ SUPPORTED_LANGUAGES) (languages c)
                  ∧ Forall (λ m, m ∈ MOBILE_MONEY_PROVIDERS) (mobile_money c)).
  { repeat (apply elem_of_cons in Hc as [[= -> ->] | Hc];
            [ split; [apply (bool_decide_unpack (_ ∈ _)); vm_compute; exact I |];
              split; apply (bool_decide_unpack (Forall _ _)); vm_compute; exact I |]).
    by apply elem_of_nil in Hc. }
  split; [apply region_has_calendar; apply Hrest | exact Hrest].
Qed.

(** X7. [get_local_varieties] answers for six pairs of crop and country
    exactly, with three varieties each, and gives the empty list for
    every other pair, a crop or country it does not know included. *)
Theorem get_local_varieties_table (crop country_code : string) :
  (get_local_varieties crop country_code ≠ []
   ↔ (crop, country_code)
     ∈ [ ("maize", "NG"); ("maize", "KE"); ("maize", "GH");
         ("rice", "NG"); ("rice", "GH"); ("rice", "SN") ])
  ∧ (get_local_varieties crop country_code = []
     ∨ length (get_local_varieties crop country_code) = 3%nat).
Proof.
  assert (Hno : ∀ l : list (string * string), (crop, country_code) ∈ l →
            Forall (λ kv, kv.1 ≠ crop ∨ kv.2 ≠ country_code) l → False).
  { intros l Hin Hall. rewrite Forall_forall in Hall.
    destruct (Hall _ Hin) as [Hne | Hne]; by apply Hne. }
  unfold get_local_varieties, local_varieties. cbn.
  destruct (decide (crop = "maize")) as [-> | Hm].
  - rewrite lookup_insert_eq. cbn.
    destruct (decide (country_code = "NG")) as [-> | Hng];
      [rewrite lookup_insert_eq; cbn; split; [split; [intros _ | done] | by right];
       apply list_elem_of_here |].
    rewrite lookup_insert_ne by done.
    destruct (decide (country_code = "KE")) as [-> | Hke];
      [rewrite lookup_insert_eq; cbn; split; [split; [intros _ | done] | by right];
       apply list_elem_of_further, list_elem_of_here |].
    rewrite lookup_insert_ne by done.
    destruct (decide (country_code = "GH")) as [-> | Hgh];
      [rewrite lookup_insert_eq; cbn; split; [split; [intros _ | done] | by right];
       do 2 apply list_elem_of_further; apply list_elem_of_here |].
    rewrite lookup_insert_ne by done. rewrite lookup_empty. cbn.
    split; [split; [done |] | by left].
    intros Hin. exfalso. apply (Hno _ Hin).
    repeat (constructor; [cbn; first [by right | by left] |]). constructor.
  - rewrite lookup_insert_ne by done.
    destruct (decide (crop = "rice")) as [-> | Hr].
    + rewrite lookup_insert_eq. cbn.
      destruct (decide (country_code = "NG")) as [-> | Hng];
        [rewrite lookup_insert_eq; cbn; split; [split; [intros _ | done] | by right];
         do 3 apply list_elem_of_further; apply list_elem_of_here |].
      rewrite lookup_insert_ne by done.
      destruct (decide (country_code = "GH")) as [-> | Hgh];
        [rewrite lookup_insert_eq; cbn; split; [split; [intros _ | done] | by right];
         do 4 apply list_elem_of_further; apply list_elem_of_here |].
      rewrite lookup_insert_ne by done.
      destruct (decide (country_code = "SN")) as [-> | Hsn];
        [rewrite lookup_insert_eq; cbn; split; [split; [intros _ | done] | by right];
         do 5 apply list_elem_of_further; apply list_elem_of_here |].
      rewrite lookup_insert_ne by done. rewrite lookup_empty. cbn.
      split; [split; [done |] | by left].
      intros Hin. exfalso. apply (Hno _ Hin).
      repeat (constructor; [cbn; first [by right | by left] |]). constructor.
    + rewrite lookup_insert_ne by done. rewrite lookup_empty. cbn.
      rewrite lookup_empty. cbn.
      split; [split; [done |] | by left].
      intros Hin. exfalso. apply (Hno _ Hin).
      repeat (constructor; [cbn; first [by left | by right] |]). constructor.
Qed.

End AgriculturalFacts.

(* ===================================================================== *)
(** * The session generator (database.py) *)
(* ===================================================================== *)

Section SessionFacts.
Import Sessions.

(** The journal and the result of the generator when the session could
    be created, by what the [try] block ended with. *)
Lemma get_sync_session_runs (s : faults) (thrown : option pyexc) :
  creation s = None →
  get_sync_session s thrown []
  = match body_error s thrown with
    | None => ([SessionLocal; Commit; Close],
               match close s with
               | Some fe => inr (out_of_generator fe)
               | None => inl tt
               end)
    | Some e =>
        let tried := match thrown with Some _ => [] | None => [Commit] end in
        if is_Exception e then
          match rollback s with
          | Some re =>
              (SessionLocal :: tried ++ [Rollback; Close],
               inr (out_of_generator
                      (match close s with Some fe => fe | None => re end)))
          | None =>
              (SessionLocal :: tried ++ [Rollback; LogError; Close],
               inr (out_of_generator
                      (match close s with Some fe => fe | None => e end)))
          end
        else
          (SessionLocal :: tried ++ [Close],
           inr (out_of_generator
                  (match close s with Some fe => fe | None => e end)))
    end.
Proof.
  destruct s as [cr cm rb cl]. cbn. intros ->.
  destruct thrown as [[c []] |], cm as [[c' []] |], rb as [re |], cl as [fe |];
    reflexivity.
Qed.

Lemma out_of_generator_not_StopIteration (e : pyexc) :
  is_StopIteration (out_of_generator e) = false.
Proof. by destruct e as [c []]. Qed.

(** X8. When the session was created, [get_sync_session] closes it on
    every path, exactly once and as its last call, whether the consumer
    resumed, failed or closed the generator, and whichever call raised.
    It commits only if the consumer resumed normally, and it rolls back
    exactly when the [try] block ended with an exception that derives
    from [Exception]. When the session could not be created, nothing
    else is called, and the exception of the creation leaves the
    generator. *)
Theorem session_always_closed (s : faults) (thrown : option pyexc) :
  (creation s = None →
     let journal := (get_sync_session s thrown []).1 in
     last journal = Some Close
     ∧ length (filter (λ c, c = Close) journal) = 1%nat
     ∧ (Commit ∈ journal ↔ thrown = None)
     ∧ (Rollback ∈ journal
        ↔ ∃ e, body_error s thrown = Some e ∧ is_Exception e = true))
  ∧ (∀ e, creation s = Some e →
       get_sync_session s thrown [] = ([SessionLocal], inr (out_of_generator e))).
Proof.
  split.
  - intros Hcr. cbn zeta. rewrite (get_sync_session_runs s thrown Hcr).
    destruct s as [cr cm rb cl]. cbn in *.
    destruct thrown as [[c []] |], cm as [[c' []] |], rb as [re |], cl as [fe |];
      cbn; (split; [reflexivity |]); (split; [reflexivity |]);
      (split; [split; [try done; intros Hin | try done; intros _] |
               split; [try (by eauto); intros Hin | try done; intros (e & [= <-] & He)]]);
      try (by repeat (apply elem_of_cons in Hin as [[=] | Hin]);
              apply elem_of_nil in Hin);
      try (by repeat first [apply list_elem_of_here | apply list_elem_of_further]);
      try discriminate.
  - intros e He. destruct s as [cr cm rb cl]. cbn in *. subst cr. reflexivity.
Qed.


End SessionFacts.

(** A request handler fails with a [ValueError] on a healthy session. *)
Lemma session_always_closed_witness :
  let healthy := Sessions.mkFaults None None None None in
  let failure := Some (Sessions.PyExc "ValueError" Sessions.FromException) in
  Sessions.creation healthy = None
  ∧ (Sessions.get_sync_session healthy failure []).1
    = [Sessions.SessionLocal; Sessions.Rollback; Sessions.LogError; Sessions.Close]
  ∧ last (Sessions.get_sync_session healthy failure []).1 = Some Sessions.Close
  ∧ Sessions.get_sync_session (Sessions.mkFaults failure None None None) None []
    = ([Sessions.SessionLocal],
       inr (Sessions.PyExc "ValueError" Sessions.FromException)).
Proof.
  intros healthy failure. split; [reflexivity |]. split; [reflexivity |]. split.
  - exact (proj1 (proj1 (session_always_closed healthy failure) eq_refl)).
  - exact (proj2 (session_always_closed (Sessions.mkFaults failure None None None) None)
             _ eq_refl).
Defined.


(* ===================================================================== *)
(** * The offline database file and the slow query log (database.py) *)
(* ===================================================================== *)

Section OfflineFacts.
Import Py Database OfflineSetup.

Lemma append_cons (c : Ascii.ascii) (s t : string) :
  String c s +:+ t = String c (s +:+ t).
Proof. reflexivity. Qed.

Lemma append_length (s t : string) :
  String.length (s +:+ t) = (String.length s + String.length t)%nat.
Proof.
  induction s as [| c s IH]; [reflexivity |].
  rewrite append_cons. cbn. by rewrite IH.
Qed.

(** A common ending can be taken off both sides. *)
Lemma append_cancel_r (t s1 s2 : string) : s1 +:+ t = s2 +:+ t → s1 = s2.
Proof.
  revert s2. induction s1 as [| c1 s1 IH]; intros [| c2 s2] Heq.
  - reflexivity.
  - apply (f_equal String.length) in Heq.
    rewrite append_cons in Heq. change ("" +:+ t) with t in Heq.
    cbn in Heq. rewrite append_length in Heq. lia.
  - apply (f_equal String.length) in Heq.
    rewrite append_cons in Heq. change ("" +:+ t) with t in Heq.
    cbn in Heq. rewrite append_length in Heq. lia.
  - rewrite !append_cons in Heq. injection Heq as -> Heq.
    by rewrite (IH _ Heq).
Qed.

Lemma offline_db_url_inj (u1 u2 : string) :
  offline_db_url u1 = offline_db_url u2 → u1 = u2.
Proof.
  unfold offline_db_url, offline_db_path. intros Heq.
  apply (inj (String.app _)) in Heq. apply (inj (String.app _)) in Heq.
  by apply append_cancel_r in Heq.
Qed.

(** X10. [setup_offline_db] binds the object to the URL made from the
    user id. When both calls succeed, engine and session factory are
    those of that URL, the rows and the sync log are as before, and the
    one thing issued is the [create_all]. When [create_engine] raises,
    nothing has changed. When [create_all] raises, the engine is already
    the new one while the session factory is the one the object had, so
    an object set up before for another user is left with an engine and
    a factory of different URLs. The URL determines the user id. *)
Theorem setup_offline_db_binds (f : setup_faults) (user_id : string)
    (self : OfflineDatabase) (st : stores) :
  let after := setup_offline_db f user_id (self, st) in
  (create_engine f = None → create_all f = None →
     after.1 = inl VNone
     ∧ offline_engine after.2.1 = Some (offline_db_url user_id)
     ∧ offline_session after.2.1 = Some (offline_db_url user_id)
     ∧ offline_rows after.2.2 = offline_rows st
     ∧ online_rows after.2.2 = online_rows st
     ∧ sync_logs after.2.2 = sync_logs st
     ∧ statements after.2.2
       = statements st ++ ["create_all " +:+ offline_db_url user_id])
  ∧ (∀ e, create_engine f = Some e → after = (inr e, (self, st)))
  ∧ (∀ e, create_engine f = None → create_all f = Some e →
       after.1 = inr e
       ∧ offline_engine after.2.1 = Some (offline_db_url user_id)
       ∧ offline_session after.2.1 = offline_session self
       ∧ after.2.2 = st
       ∧ ∀ previous, offline_session self = Some (offline_db_url previous) →
           previous ≠ user_id →
           offline_engine after.2.1 ≠ offline_session after.2.1)
  ∧ (∀ other, offline_db_url user_id = offline_db_url other → user_id = other).
Proof.
  cbn zeta. unfold setup_offline_db.
  split; [| split; [| split]].
  - intros -> ->. by repeat split.
  - by intros e ->.
  - intros e -> ->. cbn. repeat split.
    intros previous -> Hne Heq. apply Hne. symmetry.
    apply offline_db_url_inj. by apply (inj Some).
  - intros other. apply offline_db_url_inj.
Qed.

(** An object set up for user "17" is set up again for user "42" while
    the file cannot be opened. *)
Lemma setup_offline_db_binds_witness :
  let healthy := OfflineSetup.mkSetupFaults None None in
  let unopened :=
    OfflineSetup.mkSetupFaults None
      (Some (Sessions.PyExc "OperationalError" Sessions.FromException)) in
  let st := Database.mkStores ∅ ∅ [] [] in
  let first := OfflineSetup.setup_offline_db healthy "17" (Database.__init__, st) in
  let second := OfflineSetup.setup_offline_db unopened "42" first.2 in
  first.2.1
  = Database.mkOfflineDatabase (Some "sqlite:///offline_data/user_17.db"%string)
      (Some "sqlite:///offline_data/user_17.db"%string)
  ∧ Database.statements first.2.2
    = ["create_all sqlite:///offline_data/user_17.db"%string]
  ∧ second.1 = inr (Sessions.PyExc "OperationalError" Sessions.FromException)
  ∧ Database.offline_engine second.2.1
    = Some "sqlite:///offline_data/user_42.db"%string
  ∧ Database.offline_session second.2.1
    = Some "sqlite:///offline_data/user_17.db"%string
  ∧ Database.offline_engine second.2.1 ≠ Database.offline_session second.2.1.
Proof.
  intros healthy unopened st first second.
  pose proof (proj1 (setup_offline_db_binds healthy "17" Database.__init__ st)
                eq_refl eq_refl) as (_ & He1 & Hs1 & _ & _ & _ & Hst1).
  pose proof (proj1 (proj2 (proj2 (setup_offline_db_binds unopened "42"
                                     first.2.1 first.2.2)))
                _ eq_refl eq_refl) as (Hr2 & He2 & Hs2 & _ & Hdiff).
  split; [reflexivity |]. split; [exact Hst1 |]. split; [exact Hr2 |].
  split; [exact He2 |]. split; [exact Hs2 |].
  apply (Hdiff "17"%string); [reflexivity | discriminate].
Defined.

Section SlowQueryFacts.
Context {char : Type} (dot : char).

(** X11. The warning for a slow query carries at most 103 characters of
    the statement: a statement of up to 100 characters goes in whole, a
    longer one as its first 100 characters and three dots, and no
    warning is made for a query that was not slow. *)
Theorem slow_query_log_bounded (statement : list char) :
  receive_after_cursor_execute dot false statement = None
  ∧ ∃ logged,
      receive_after_cursor_execute dot true statement = Some logged
      ∧ (length logged ≤ 103)%nat
      ∧ take 100 logged = take 100 statement
      ∧ ((length statement ≤ 100)%nat → logged = statement)
      ∧ ((100 < length statement)%nat →
         logged = take 100 statement ++ [dot; dot; dot]
         ∧ length logged = 103%nat).
Proof.
  split; [reflexivity |]. unfold receive_after_cursor_execute, logged_statement.
  eexists. split; [reflexivity |]. case_bool_decide as Hlen.
  - assert (length (take 100 statement) = 100%nat) as Htake
      by (rewrite length_take; lia).
    split; [rewrite length_app, Htake; cbn; lia |].
    split; [| split; [lia |]].
    + rewrite take_app_le by lia. by rewrite take_take.
    + intros _. split; [reflexivity |]. rewrite length_app, Htake. reflexivity.
  - split; [lia |]. split; [reflexivity |]. split; [done | lia].
Qed.

End SlowQueryFacts.

Lemma slow_query_log_bounded_witness :
  let statement := replicate 150 "a"%string in
  (100 < length statement)%nat
  ∧ ∃ logged,
      OfflineSetup.receive_after_cursor_execute "."%string true statement = Some logged
      ∧ length logged = 103%nat.
Proof.
  intros statement.
  assert (Hlen : (100 < length statement)%nat) by (vm_compute; lia).
  split; [exact Hlen |].
  destruct (proj2 (slow_query_log_bounded "."%string statement))
    as (logged & Hlog & _ & _ & _ & Hlong).
  exists logged. split; [exact Hlog | exact (proj2 (Hlong Hlen))].
Defined.

End OfflineFacts.

(* ===================================================================== *)
(** * Age, failed logins and farm age (user.py, farm.py) *)
(* ===================================================================== *)

Section AgeFacts.
Import UserAge.

Lemma pair_lt_spec m1 d1 m2 d2 :
  pair_lt m1 d1 m2 d2 = true ↔ m1 < m2 ∨ (m1 = m2 ∧ d1 < d2).
Proof. unfold pair_lt. apply bool_decide_eq_true. Qed.

(** X12. [User.age] is the number of birthdays reached: today lies on or
    after the birthday of that many years after birth and before the
    next one, and no other number has this property. The call never
    fails, whatever the two dates. *)
Theorem age_counts_birthdays (today born : ymd) :
  ∃ n, age today (Some born) = Some n
       ∧ date_le (anniversary born n) today
       ∧ date_lt today (anniversary born (n + 1))
       ∧ ∀ m, date_le (anniversary born m) today →
              date_lt today (anniversary born (m + 1)) → m = n.
Proof.
  destruct today as [ty tm td], born as [byr bm bd].
  unfold age, anniversary, date_le, date_lt. cbn.
  destruct (pair_lt tm td bm bd) eqn:Hp.
  - apply pair_lt_spec in Hp. eexists. split; [reflexivity |].
    split; [left; lia |]. split; [lia |].
    intros m [Hlt | [= Hy Hm Hd]] Hnext; lia.
  - assert (¬ (tm < bm ∨ (tm = bm ∧ td < bd))) as Hn.
    { intros Hlt%pair_lt_spec. congruence. }
    eexists. split; [reflexivity |].
    split; [| split; [lia |]].
    + destruct (decide (bm = tm ∧ bd = td)) as [[-> ->] | Hne].
      * right. f_equal; lia.
      * left. lia.
    + intros m [Hlt | [= Hy Hm Hd]] Hnext; lia.
Qed.

(** X13. A date of birth is not checked against today: the age is
    negative exactly when the date of birth is after today, and it is
    absent exactly when there is no date of birth. *)
Theorem age_sign (today : ymd) (date_of_birth : option ymd) :
  (age today date_of_birth = None ↔ date_of_birth = None)
  ∧ ∀ born n, date_of_birth = Some born →
      age today date_of_birth = Some n →
      (n < 0 ↔ date_lt today born).
Proof.
  split; [by destruct date_of_birth |].
  intros born n -> [= <-].
  destruct today as [ty tm td], born as [byr bm bd].
  unfold date_lt. cbn.
  destruct (pair_lt tm td bm bd) eqn:Hp.
  - apply pair_lt_spec in Hp. lia.
  - assert (¬ (tm < bm ∨ (tm = bm ∧ td < bd))) as Hn.
    { intros Hlt%pair_lt_spec. congruence. }
    lia.
Qed.

End AgeFacts.

(** Born on 29 February 2000, asked on 28 February 2023 and a year
    before birth. *)
Lemma age_sign_witness :
  let born := UserAge.mkYmd 2000 2 29 in
  UserAge.age (UserAge.mkYmd 2023 2 28) (Some born) = Some 22
  ∧ UserAge.age (UserAge.mkYmd 1999 2 28) (Some born) = Some (-2)
  ∧ (-2 < 0 ↔ UserAge.date_lt (UserAge.mkYmd 1999 2 28) born).
Proof.
  intros born. split; [reflexivity |]. split; [reflexivity |].
  exact (proj2 (age_sign (UserAge.mkYmd 1999 2 28) (Some born)) born (-2)
           eq_refl eq_refl).
Defined.

Section LoginFacts.
Import Py UserModel LoginHistory.

(** A failed login never touches the lock time. *)
Lemma increment_keeps_lock utcnow u :
  account_locked_until (increment_failed_login utcnow u).1 = account_locked_until u
  ∧ failed_login_attempts (increment_failed_login utcnow u).1
    = failed_login_attempts u + 1
  ∧ (increment_failed_login utcnow u).2
    = if bool_decide (failed_login_attempts u + 1 < 5) then Return tt
      else Raise (NameError "timedelta").
Proof.
  case_bool_decide as Hlt.
  - by rewrite (increment_failed_login_below utcnow u Hlt).
  - by rewrite (increment_failed_login_at_threshold utcnow u) by lia.
Qed.

Lemma failed_logins_run clock : ∀ u,
  account_locked_until (failed_logins clock u).1 = account_locked_until u
  ∧ failed_login_attempts (failed_logins clock u).1
    = failed_login_attempts u + Z.of_nat (length clock)
  ∧ length (failed_logins clock u).2 = length clock
  ∧ ∀ (i : nat) r, (failed_logins clock u).2 !! i = Some r →
      r = if bool_decide (failed_login_attempts u + Z.of_nat i + 1 < 5) then Return tt
          else Raise (NameError "timedelta").
Proof.
  induction clock as [| utcnow later IH]; intros u.
  - cbn. repeat split; [lia |]. intros i r Hi. by rewrite lookup_nil in Hi.
  - cbn [failed_logins].
    destruct (increment_keeps_lock utcnow u) as (Hlock & Hcount & Hres).
    destruct (increment_failed_login utcnow u) as [u1 r1]. cbn in *.
    destruct (IH u1) as (Hlock' & Hcount' & Hlen' & Hres').
    destruct (failed_logins later u1) as [u2 rs]. cbn in *.
    split; [congruence |]. split; [lia |]. split; [lia |].
    intros [| i] r Hi; cbn in Hi.
    + injection Hi as <-. rewrite Hres.
      by replace (failed_login_attempts u + Z.of_nat 0 + 1)
        with (failed_login_attempts u + 1) by lia.
    + rewrite (Hres' i r Hi), Hcount.
      by replace (failed_login_attempts u + 1 + Z.of_nat i + 1)
        with (failed_login_attempts u + Z.of_nat (S i) + 1) by lia.
Qed.

(** X14. No run of failed logins ever locks the account:
    [account_locked_until], and with it the answer of
    [is_account_locked] at any time, is after the run what it was
    before. The counter grows by the number of calls; a call returns
    while the new count is below five and raises [NameError] from then
    on. *)
Theorem failed_logins_never_lock (clock : list datetime) (u : User) :
  account_locked_until (failed_logins clock u).1 = account_locked_until u
  ∧ (∀ utcnow, is_account_locked utcnow (failed_logins clock u).1
               = is_account_locked utcnow u)
  ∧ failed_login_attempts (failed_logins clock u).1
    = failed_login_attempts u + Z.of_nat (length clock)
  ∧ length (failed_logins clock u).2 = length clock
  ∧ ∀ (i : nat) r, (failed_logins clock u).2 !! i = Some r →
      r = if bool_decide (failed_login_attempts u + Z.of_nat i + 1 < 5) then Return tt
          else Raise (NameError "timedelta").
Proof.
  destruct (failed_logins_run clock u) as (Hlock & Hcount & Hlen & Hres).
  split; [exact Hlock |]. split; [| by repeat split].
  intros utcnow. unfold is_account_locked. by rewrite Hlock.
Qed.

(** X15. A successful login resets the counter and nothing else about
    the lock: [update_login_info] leaves [is_account_locked] as it was,
    adds one to [login_count] and sets [last_login]; of the failed
    logins that follow, the first four return and every later one
    raises. *)
Theorem login_resets_counter (now : datetime) (u : User) (clock : list datetime) :
  (∀ utcnow, is_account_locked utcnow (update_login_info now u)
             = is_account_locked utcnow u)
  ∧ login_count (update_login_info now u) = login_count u + 1
  ∧ last_login (update_login_info now u) = Some now
  ∧ ∀ (i : nat) r,
      (failed_logins clock (update_login_info now u)).2 !! i = Some r →
      r = if bool_decide (i < 4)%nat then Return tt
          else Raise (NameError "timedelta").
Proof.
  split; [reflexivity |]. split; [reflexivity |]. split; [reflexivity |].
  intros i r Hi.
  destruct (failed_logins_run clock (update_login_info now u)) as (_ & _ & _ & Hres).
  rewrite (Hres i r Hi). cbn.
  repeat case_bool_decide; try reflexivity; lia.
Qed.

End LoginFacts.

(** Six failed logins in a row on a fresh account. *)
Lemma failed_logins_never_lock_witness :
  let u := UserModel.sample_user 0 None in
  let run := LoginHistory.failed_logins [1; 2; 3; 4; 5; 6] u in
  run.2 !! 4%nat = Some (Py.Raise (Py.NameError "timedelta"))
  ∧ run.2 !! 3%nat = Some (Py.Return tt)
  ∧ UserModel.account_locked_until run.1 = None.
Proof.
  intros u run.
  assert (H4 : run.2 !! 4%nat = Some (Py.Raise (Py.NameError "timedelta")))
    by reflexivity.
  assert (H3 : run.2 !! 3%nat = Some (Py.Return tt)) by reflexivity.
  pose proof (proj2 (proj2 (proj2 (proj2
                (failed_logins_never_lock [1; 2; 3; 4; 5; 6] u))))
                4%nat _ H4) as Hfifth.
  split; [exact H4 |]. split; [exact H3 |].
  exact (proj1 (failed_logins_never_lock [1; 2; 3; 4; 5; 6] u)).
Defined.

Lemma login_resets_counter_witness :
  let u := UserModel.sample_user 9 (Some 500) in
  let run := LoginHistory.failed_logins [1; 2; 3; 4; 5]
               (UserModel.update_login_info 0 u) in
  run.2 !! 3%nat = Some (Py.Return tt)
  ∧ Py.Return tt = (if bool_decide (3 < 4)%nat then Py.Return tt
                    else Py.Raise (Py.NameError "timedelta")).
Proof.
  intros u run.
  assert (H3 : run.2 !! 3%nat = Some (Py.Return tt)) by reflexivity.
  split; [exact H3 |].
  exact (proj2 (proj2 (proj2 (login_resets_counter 0 u [1; 2; 3; 4; 5])))
           3%nat (Py.Return tt) H3).
Defined.

Section FarmFacts.
Import Py FarmModel.

(** X16. [Farm.farm_age] counts whole periods of 365 days from the
    establishment date to today, rounding down: the age is negative
    exactly for a date in the future, and it never fails. Without an
    establishment date it is [years_in_operation], absent if that is
    absent too. *)
Theorem farm_age_periods (today : date) (f : Farm) :
  (∀ established, establishment_date f = Some established →
     ∃ a, farm_age today f = Some a
          ∧ 365 * a ≤ today - established < 365 * (a + 1)
          ∧ (a < 0 ↔ today < established))
  ∧ (establishment_date f = None → farm_age today f = years_in_operation f).
Proof.
  split.
  - intros established He. unfold farm_age. rewrite He.
    eexists. split; [reflexivity |].
    pose proof (Z.div_mod (today - established) 365 ltac:(lia)) as Hdm.
    pose proof (Z.mod_pos_bound (today - established) 365 ltac:(lia)) as Hmod.
    split; lia.
  - intros He. unfold farm_age. by rewrite He.
Qed.

End FarmFacts.

(** A farm established 1460 days ago, one day short of four calendar
    years with a leap day among them. *)
Lemma farm_age_periods_witness :
  let f := FarmModel.mkFarm (Some 10000) (Some 9) in
  FarmModel.establishment_date f = Some 10000
  ∧ ∃ a, FarmModel.farm_age 11460 f = Some a
         ∧ 365 * a ≤ 11460 - 10000 < 365 * (a + 1).
Proof.
  intros f. split; [reflexivity |].
  destruct (proj1 (farm_age_periods 11460 f) 10000 eq_refl) as (a & Ha & Hb & _).
  exists a. split; [exact Ha | exact Hb].
Defined.

(* ===================================================================== *)
(** * More on to_dict (shared.py) *)
(* ===================================================================== *)

Section ToDictFacts.
Import Py Shared.
Context `{Formatters}.

(** What the loop [result[name] = f(value)] leaves under a key: the
    value it found there, or the image of one of the columns. *)
Lemma assign_all_inv (f : value → value) (l : list (string * value)) :
  ∀ (m : gmap string value) (c : string) (v : value),
    foldl (λ res cv, <[cv.1 := f cv.2]> res) m l !! c = Some v →
    m !! c = Some v ∨ ∃ v0, (c, v0) ∈ l ∧ v = f v0.
Proof.
  induction l as [| [c' v'] l IH]; intros m c v Hv; [by left |].
  cbn in Hv. apply IH in Hv as [Hm | (v0 & Hin & ->)].
  - destruct (decide (c' = c)) as [-> | Hne].
    + rewrite lookup_insert_eq in Hm. injection Hm as <-.
      right. exists v'. split; [apply list_elem_of_here | reflexivity].
    + rewrite lookup_insert_ne in Hm by exact Hne. by left.
  - right. exists v0. split; [by apply list_elem_of_further | reflexivity].
Qed.

Lemma assign_all_present (f : value → value) (l : list (string * value)) :
  ∀ (m : gmap string value) (c : string),
    c ∈ l.*1 →
    is_Some (foldl (λ res cv, <[cv.1 := f cv.2]> res) m l !! c).
Proof.
  induction l as [| [c' v'] l IH]; intros m c Hc; [by apply elem_of_nil in Hc |].
  cbn in *. destruct (decide (c ∈ l.*1)) as [Hin | Hout]; [by apply IH |].
  apply elem_of_cons in Hc as [-> | Hc]; [| done].
  rewrite assign_all_other by exact Hout. rewrite lookup_insert_eq. by eexists.
Qed.

(** The loop looks at the map it starts from only under the key asked. *)
Lemma assign_all_agree (f : value → value) (l : list (string * value)) :
  ∀ (m1 m2 : gmap string value) (c : string),
    m1 !! c = m2 !! c →
    foldl (λ res cv, <[cv.1 := f cv.2]> res) m1 l !! c
    = foldl (λ res cv, <[cv.1 := f cv.2]> res) m2 l !! c.
Proof.
  induction l as [| [c' v'] l IH]; intros m1 m2 c Hm; [exact Hm |].
  cbn. apply IH. destruct (decide (c' = c)) as [-> | Hne].
  - by rewrite !lookup_insert_eq.
  - by rewrite !lookup_insert_ne by exact Hne.
Qed.

Lemma serialise_plain (v : value) :
  (∀ u, serialise v ≠ VUuid u) ∧ (∀ t, serialise v ≠ VDatetime t).
Proof. by destruct v. Qed.

(** X17. The keys of [to_dict] are the column names and
    "african_context", no others; and no value of the dictionary is a
    UUID or a datetime object any more. *)
Theorem to_dict_keys_and_values (r : BaseModel) (c : string) :
  (is_Some (to_dict r !! c)
   ↔ c = "african_context"%string ∨ c ∈ (table_columns r).*1)
  ∧ ∀ v, to_dict r !! c = Some v →
      (∀ u, v ≠ VUuid u) ∧ (∀ t, v ≠ VDatetime t).
Proof.
  unfold to_dict. split; [split |].
  - intros [v Hv]. destruct (decide (c = "african_context"%string)) as [-> | Hne];
      [by left | right].
    rewrite lookup_insert_ne in Hv by done.
    apply assign_all_inv in Hv as [Hm | (v0 & Hin & _)].
    + by rewrite lookup_empty in Hm.
    + apply list_elem_of_fmap. by exists (c, v0).
  - intros [-> | Hc]; [rewrite lookup_insert_eq; by eexists |].
    destruct (decide (c = "african_context"%string)) as [-> | Hne];
      [rewrite lookup_insert_eq; by eexists |].
    rewrite lookup_insert_ne by done. by apply assign_all_present.
  - intros v Hv. destruct (decide (c = "african_context"%string)) as [-> | Hne].
    + rewrite lookup_insert_eq in Hv. injection Hv as <-. by split.
    + rewrite lookup_insert_ne in Hv by done.
      apply assign_all_inv in Hv as [Hm | (v0 & _ & ->)].
      * by rewrite lookup_empty in Hm.
      * apply serialise_plain.
Qed.

(** The inherited columns, run through the loop from the empty map. *)
Lemma base_run_agree (call_ : lifecycle_call) (r : BaseModel) (key : string) :
  key ∉ [ "sync_status"; "updated_at"; "last_sync_at" ]%string →
  foldl (λ res cv, <[cv.1 := serialise cv.2]> res) (∅ : gmap string value)
    (base_columns (call call_ r)) !! key
  = foldl (λ res cv, <[cv.1 := serialise cv.2]> res) (∅ : gmap string value)
      (base_columns r) !! key.
Proof.
  intros Hkey. destruct (decide (key ∈ base_column_names)) as [Hin | Hout].
  - unfold base_column_names in Hin.
    repeat (apply elem_of_cons in Hin as [-> | Hin];
            [ first [ exfalso; apply Hkey;
                      repeat first [apply list_elem_of_here
                                   | apply list_elem_of_further]; fail
                    | destruct call_; vm_compute; reflexivity ] |]).
    by apply elem_of_nil in Hin.
  - rewrite !assign_all_other by (by rewrite base_columns_names).
    reflexivity.
Qed.

(** X18. The life-cycle calls touch the sync bookkeeping only: under
    every key but "sync_status", "updated_at" and "last_sync_at",
    [to_dict] gives after [mark_for_sync], [mark_synced] or
    [mark_conflict] what it gave before. *)
Theorem lifecycle_keeps_data (call_ : lifecycle_call) (r : BaseModel)
    (key : string) :
  key ∉ [ "sync_status"; "updated_at"; "last_sync_at" ]%string →
  to_dict (call call_ r) !! key = to_dict r !! key.
Proof.
  intros Hkey. unfold to_dict.
  assert (Hown : own_columns (call call_ r) = own_columns r) by (by destruct call_).
  assert (Hctx : african_context (call call_ r) = african_context r)
    by (by destruct call_).
  rewrite Hctx. destruct (decide (key = "african_context"%string)) as [-> | Hne];
    [by rewrite !lookup_insert_eq |].
  rewrite !lookup_insert_ne by done.
  unfold table_columns. rewrite !foldl_app, Hown.
  apply assign_all_agree. by apply base_run_agree.
Qed.

End ToDictFacts.

(** The farm's "id" and owner before and after [mark_for_sync]. *)
Lemma lifecycle_keeps_data_witness :
  ("owner_id"%string ∉ [ "sync_status"; "updated_at"; "last_sync_at" ]%string)
  ∧ @Shared.to_dict Fixtures.decimal_formatters
      (Shared.call (Shared.CallMarkForSync 300) Fixtures.sample_farm) !! "owner_id"
    = @Shared.to_dict Fixtures.decimal_formatters Fixtures.sample_farm !! "owner_id".
Proof.
  assert (Hkey : "owner_id"%string
                 ∉ [ "sync_status"; "updated_at"; "last_sync_at" ]%string).
  { intros Hin. repeat (apply elem_of_cons in Hin as [[=] | Hin]).
    by apply elem_of_nil in Hin. }
  split; [exact Hkey |].
  exact (@lifecycle_keeps_data Fixtures.decimal_formatters
           (Shared.CallMarkForSync 300) Fixtures.sample_farm "owner_id" Hkey).
Defined.

(* ===================================================================== *)
(** * Serialisation for sync of an instance, saved or not (shared.py) *)
(* ===================================================================== *)

Section InstanceSyncData.
Import Py.
Context `{Formatters}.

Lemma instance_base_columns_names i :
  (Instances.base_columns i).*1 = Shared.base_column_names.
Proof. reflexivity. Qed.

Lemma elem_of_keys (m : gmap string value) (k : string) :
  k ∈ (map_to_list m).*1 ↔ is_Some (m !! k).
Proof.
  rewrite list_elem_of_fmap. split.
  - intros [[k' v] [-> Hin]]. apply elem_of_map_to_list in Hin. by exists v.
  - intros [v Hv]. exists (k, v). split; [reflexivity |].
    by apply elem_of_map_to_list.
Qed.

Lemma instance_table_columns_NoDup (i : Instances.Instance) :
  (∀ c, c ∈ Shared.base_column_names → Instances.own_columns i !! c = None) →
  NoDup (Instances.table_columns i).*1.
Proof.
  intros Hown. unfold Instances.table_columns.
  rewrite fmap_app, instance_base_columns_names.
  apply NoDup_app. split; [| split].
  - apply (bool_decide_unpack (NoDup Shared.base_column_names)).
    vm_compute. exact I.
  - intros c Hc [v Hv]%elem_of_keys. rewrite (Hown c Hc) in Hv. discriminate.
  - apply NoDup_fst_map_to_list.
Qed.

Lemma instance_to_dict_column (i : Instances.Instance) (c : string) (v : value) :
  (∀ c, c ∈ Shared.base_column_names → Instances.own_columns i !! c = None) →
  (c, v) ∈ Instances.table_columns i → c ≠ "african_context"%string →
  Instances.to_dict i !! c = Some (Shared.serialise v).
Proof.
  intros Hown Hin Hne. unfold Instances.to_dict.
  rewrite lookup_insert_ne by done.
  apply assign_all_lookup; [by apply instance_table_columns_NoDup | exact Hin].
Qed.

Lemma instance_to_dict_keys (i : Instances.Instance) (k : string) :
  is_Some (Instances.to_dict i !! k)
  ↔ k = "african_context"%string ∨ k ∈ Shared.base_column_names
    ∨ is_Some (Instances.own_columns i !! k).
Proof.
  assert (Hcols : k ∈ (Instances.table_columns i).*1
                  ↔ k ∈ Shared.base_column_names
                    ∨ is_Some (Instances.own_columns i !! k)).
  { unfold Instances.table_columns.
    by rewrite fmap_app, elem_of_app, instance_base_columns_names, elem_of_keys. }
  rewrite <- Hcols. unfold Instances.to_dict. split.
  - intros [v Hv]. destruct (decide (k = "african_context"%string)) as [-> | Hne];
      [by left | right].
    rewrite lookup_insert_ne in Hv by done.
    apply assign_all_inv in Hv as [Hm | (v0 & Hin & _)].
    + by rewrite lookup_empty in Hm.
    + apply list_elem_of_fmap. by exists (k, v0).
  - intros [-> | Hc]; [rewrite lookup_insert_eq; by eexists |].
    destruct (decide (k = "african_context"%string)) as [-> | Hne];
      [rewrite lookup_insert_eq; by eexists |].
    rewrite lookup_insert_ne by done. by apply assign_all_present.
Qed.

(** What the [isinstance] chain makes of a value, said without it. *)
Lemma serialise_cases (v : value) :
  (∀ u, v = VUuid u → Shared.serialise v = VStr (uuid_str u))
  ∧ (∀ t, v = VDatetime t → Shared.serialise v = VStr (isoformat t))
  ∧ ((∀ u, v ≠ VUuid u) → (∀ t, v ≠ VDatetime t) → Shared.serialise v = v).
Proof.
  split; [by intros u -> | split; [by intros t -> |]].
  intros Hu Ht. destruct v; try reflexivity.
  - by destruct (Hu u).
  - by destruct (Ht d).
Qed.

Lemma get_sync_data_of_row (r : Shared.BaseModel) :
  Instances.get_sync_data (Instances.of_row r) = Shared.get_sync_data r.
Proof. reflexivity. Qed.

Lemma keys_of_inserts (m : gmap string value) (k : string) (keys : list string) :
  (∀ k', is_Some (m !! k') ↔ k' ∈ keys) →
  ∀ k0 v, is_Some (<[k0 := v]> m !! k) ↔ k ∈ k0 :: keys.
Proof.
  intros Hm k0 v. rewrite lookup_insert_is_Some', elem_of_cons, Hm.
  split; (intros [-> | Hk]; [by left | by right]).
Qed.

Ltac inherited_column Hown i name field :=
  let Hc := fresh "Hc" in
  eassert (Hc : Instances.to_dict i !! name = Some (Shared.serialise _));
  [ apply (instance_to_dict_column i name _ Hown);
    [ unfold Instances.table_columns, Instances.base_columns;
      apply elem_of_app; left;
      repeat first [apply list_elem_of_here | apply list_elem_of_further]
    | discriminate ]
  | rewrite Hc; by destruct (field i) ].

Ltac keys_of_map :=
  repeat (apply keys_of_inserts; intros ?);
  rewrite lookup_empty, elem_of_nil; split; [by intros [? ?] | done].

(** C8, for an instance saved or not. The dictionary of [get_sync_data]
    has the five keys "id", "sync_status", "last_sync_at", "offline_id"
    and "data". "id" is the string form of the UUID, and the string
    "None" while the instance has no [id]; "sync_status" and
    "offline_id" are the attributes as they are, [None] included;
    "last_sync_at" is [None] exactly when the attribute is, and its ISO
    string otherwise. "data" has a key for every column of the table and
    "african_context", no others; under a column's name it holds the
    attribute, a UUID as its string form, a datetime as its ISO string,
    anything else as it is; and "african_context" holds the four entries
    [to_dict] builds. *)
Theorem get_sync_data_shape (i : Instances.Instance)
    (Hown : ∀ c, c ∈ Shared.base_column_names →
                 Instances.own_columns i !! c = None) :
  let d := Instances.get_sync_data i in
  let shown := λ (v out : value),
    (∀ u, v = VUuid u → out = VStr (uuid_str u))
    ∧ (∀ t, v = VDatetime t → out = VStr (isoformat t))
    ∧ ((∀ u, v ≠ VUuid u) → (∀ t, v ≠ VDatetime t) → out = v) in
  (∀ u, Instances.id i = Some u → d !! "id" = Some (VStr (uuid_str u)))
  ∧ (Instances.id i = None → d !! "id" = Some (VStr "None"))
  ∧ (∀ s, Instances.sync_status i = Some s → d !! "sync_status" = Some (VStr s))
  ∧ (Instances.sync_status i = None → d !! "sync_status" = Some VNone)
  ∧ (∀ s, Instances.offline_id i = Some s → d !! "offline_id" = Some (VStr s))
  ∧ (Instances.offline_id i = None → d !! "offline_id" = Some VNone)
  ∧ (∀ t, Instances.last_sync_at i = Some t →
       d !! "last_sync_at" = Some (VStr (isoformat t)))
  ∧ (d !! "last_sync_at" = Some VNone ↔ Instances.last_sync_at i = None)
  ∧ (∀ k, is_Some (d !! k)
          ↔ k ∈ [ "id"; "sync_status"; "last_sync_at"; "offline_id"; "data" ]%string)
  ∧ ∃ data ctx,
      d !! "data" = Some (VDict data)
      ∧ (∀ k, is_Some (data !! k)
              ↔ k = "african_context"%string ∨ k ∈ Shared.base_column_names
                ∨ is_Some (Instances.own_columns i !! k))
      ∧ data !! "id" = Some (default VNone (VStr ∘ uuid_str <$> Instances.id i))
      ∧ data !! "created_at"
        = Some (default VNone (VStr ∘ isoformat <$> Instances.created_at i))
      ∧ data !! "updated_at"
        = Some (default VNone (VStr ∘ isoformat <$> Instances.updated_at i))
      ∧ data !! "deleted_at"
        = Some (default VNone (VStr ∘ isoformat <$> Instances.deleted_at i))
      ∧ data !! "last_sync_at"
        = Some (default VNone (VStr ∘ isoformat <$> Instances.last_sync_at i))
      ∧ data !! "is_deleted"
        = Some (default VNone (VBool <$> Instances.is_deleted i))
      ∧ data !! "mobile_optimized"
        = Some (default VNone (VBool <$> Instances.mobile_optimized i))
      ∧ data !! "sync_status"
        = Some (default VNone (VStr <$> Instances.sync_status i))
      ∧ data !! "offline_id"
        = Some (default VNone (VStr <$> Instances.offline_id i))
      ∧ data !! "language_code"
        = Some (default VNone (VStr <$> Instances.language_code i))
      ∧ data !! "data_residency_country"
        = Some (default VNone (VStr <$> Instances.data_residency_country i))
      ∧ (∃ out, data !! "cultural_context" = Some out
                ∧ shown (default VNone (Instances.cultural_context i)) out)
      ∧ (∃ out, data !! "metadata_info" = Some out
                ∧ shown (default VNone (Instances.metadata_info i)) out)
      ∧ (∀ c v, Instances.own_columns i !! c = Some v →
           c ≠ "african_context"%string →
           ∃ out, data !! c = Some out ∧ shown v out)
      ∧ data !! "african_context" = Some (VDict ctx)
      ∧ ctx !! "country_code"
        = Some (default VNone (Instances.own_columns i !! "country_code"))
      ∧ ctx !! "region"
        = Some (default VNone (Instances.own_columns i !! "region"))
      ∧ ctx !! "language_code"
        = Some (default VNone (VStr <$> Instances.language_code i))
      ∧ ctx !! "cultural_context"
        = Some (default VNone (Instances.cultural_context i))
      ∧ ∀ k, is_Some (ctx !! k)
             ↔ k ∈ [ "country_code"; "region"; "language_code";
                     "cultural_context" ]%string.
Proof.
  cbn zeta. unfold Instances.get_sync_data.
  split; [intros u ->; by simplify_map_eq |].
  split; [intros ->; by simplify_map_eq |].
  split; [intros s ->; by simplify_map_eq |].
  split; [intros ->; by simplify_map_eq |].
  split; [intros s ->; by simplify_map_eq |].
  split; [intros ->; by simplify_map_eq |].
  split; [intros t ->; by simplify_map_eq |].
  split.
  { rewrite lookup_insert_ne, lookup_insert_ne, lookup_insert_eq by done.
    destruct (Instances.last_sync_at i); split; congruence. }
  split.
  { intros k. unfold Instances.get_sync_data. cbn zeta.
    transitivity
      (k ∈ [ "data"; "offline_id"; "last_sync_at"; "sync_status"; "id" ]%string);
      [keys_of_map |].
    rewrite !elem_of_cons, !elem_of_nil. tauto. }
  exists (Instances.to_dict i), (Instances.african_context i).
  split; [by simplify_map_eq |].
  split; [apply instance_to_dict_keys |].
  split; [inherited_column Hown i "id"%string Instances.id |].
  split; [inherited_column Hown i "created_at"%string Instances.created_at |].
  split; [inherited_column Hown i "updated_at"%string Instances.updated_at |].
  split; [inherited_column Hown i "deleted_at"%string Instances.deleted_at |].
  split; [inherited_column Hown i "last_sync_at"%string Instances.last_sync_at |].
  split; [inherited_column Hown i "is_deleted"%string Instances.is_deleted |].
  split; [inherited_column Hown i "mobile_optimized"%string Instances.mobile_optimized |].
  split; [inherited_column Hown i "sync_status"%string Instances.sync_status |].
  split; [inherited_column Hown i "offline_id"%string Instances.offline_id |].
  split; [inherited_column Hown i "language_code"%string Instances.language_code |].
  split; [inherited_column Hown i "data_residency_country"%string Instances.data_residency_country |].
  split.
  { eexists. split; [| apply serialise_cases].
    rewrite (instance_to_dict_column i "cultural_context"
               (of_opt (λ v, v) (Instances.cultural_context i)) Hown);
      [by destruct (Instances.cultural_context i) | | discriminate].
    unfold Instances.table_columns, Instances.base_columns.
    apply elem_of_app; left.
    repeat first [apply list_elem_of_here | apply list_elem_of_further]. }
  split.
  { eexists. split; [| apply serialise_cases].
    rewrite (instance_to_dict_column i "metadata_info"
               (of_opt (λ v, v) (Instances.metadata_info i)) Hown);
      [by destruct (Instances.metadata_info i) | | discriminate].
    unfold Instances.table_columns, Instances.base_columns.
    apply elem_of_app; left.
    repeat first [apply list_elem_of_here | apply list_elem_of_further]. }
  split.
  { intros c v Hv Hne. eexists. split; [| apply serialise_cases].
    apply instance_to_dict_column; [exact Hown | | exact Hne].
    unfold Instances.table_columns. apply elem_of_app. right.
    by apply elem_of_map_to_list. }
  split; [unfold Instances.to_dict; apply lookup_insert_eq |].
  unfold Instances.african_context, Instances.getattr_or_none.
  split; [by simplify_map_eq |]. split; [by simplify_map_eq |].
  split; [destruct (Instances.language_code i); by simplify_map_eq |].
  split; [destruct (Instances.cultural_context i); by simplify_map_eq |].
  intros k.
  transitivity
    (k ∈ [ "cultural_context"; "language_code"; "region"; "country_code" ]%string);
    [keys_of_map |].
  rewrite !elem_of_cons, !elem_of_nil. tauto.
Qed.

Lemma canonical_uuid_str_not_None (u : uuid) :
  canonical_uuid_str u ≠ "None"%string.
Proof.
  unfold canonical_uuid_str. generalize (hex 8 (N.shiftr u 96)).
  intros [| c1 [| c2 [| c3 [| c4 [| c5 rest]]]]]; cbn; discriminate.
Qed.

End InstanceSyncData.

(** The farm that was saved, edited on a device as "o7" and synced at
    250: the offline id and the sync time are in the dictionary. *)
Lemma get_sync_data_shape_witness :
  let d := @Instances.get_sync_data Fixtures.decimal_formatters
             Fixtures.synced_farm in
  (∀ c, c ∈ Shared.base_column_names →
        Instances.own_columns Fixtures.synced_farm !! c = None)
  ∧ d !! "id" = Some (Py.VStr (@Py.uuid_str Fixtures.decimal_formatters 5%N))
  ∧ d !! "sync_status" = Some (Py.VStr "synced")
  ∧ d !! "offline_id" = Some (Py.VStr "o7")
  ∧ d !! "last_sync_at"
    = Some (Py.VStr (@Py.isoformat Fixtures.decimal_formatters 250))
  ∧ ∃ data,
      d !! "data" = Some (Py.VDict data)
      ∧ data !! "offline_id" = Some (Py.VStr "o7")
      ∧ data !! "updated_at"
        = Some (Py.VStr (@Py.isoformat Fixtures.decimal_formatters 200))
      ∧ data !! "owner_id"
        = Some (Py.VStr (@Py.uuid_str Fixtures.decimal_formatters 9%N)).
Proof.
  intros d.
  assert (Hall : Forall (λ c, Instances.own_columns Fixtures.synced_farm !! c = None)
                   Shared.base_column_names).
  { unfold Shared.base_column_names.
    repeat (constructor; [vm_compute; reflexivity |]). constructor. }
  pose proof (proj1 (Forall_forall _ _) Hall) as Hown.
  assert (Howner : Instances.own_columns Fixtures.synced_farm !! "owner_id"
                   = Some (Py.VUuid 9%N)) by (vm_compute; reflexivity).
  split; [exact Hown |].
  pose proof (@get_sync_data_shape Fixtures.decimal_formatters
                Fixtures.synced_farm Hown) as Hshape.
  cbv zeta in Hshape.
  destruct Hshape as (Hid & _ & Hstatus & _ & Hoffline & _ & Hsynced & _ & _
                      & data & ctx & Hdata & _ & _ & _ & Hupdated & _ & _ & _ & _
                      & _ & Hoff & _ & _ & _ & _ & Hcols & _).
  split; [exact (Hid 5%N eq_refl) |].
  split; [exact (Hstatus "synced"%string eq_refl) |].
  split; [exact (Hoffline "o7"%string eq_refl) |].
  split; [exact (Hsynced 250 eq_refl) |].
  exists data. split; [exact Hdata |]. split; [exact Hoff |].
  split; [exact Hupdated |].
  destruct (Hcols "owner_id"%string (Py.VUuid 9%N) Howner ltac:(discriminate))
    as (out & Hout & Huuid & _).
  rewrite Hout. f_equal. exact (Huuid 9%N eq_refl).
Defined.

(** C8, as the claim words it, fails on a farm that was constructed and
    not yet saved: it has no UUID, and its "id" is the string "None",
    which is the string form of no UUID. *)
Lemma unsaved_record_id_is_None :
  let d := @Instances.get_sync_data Fixtures.canonical_formatters
             Fixtures.unsaved_farm in
  Instances.id Fixtures.unsaved_farm = None
  ∧ d !! "id" = Some (Py.VStr "None")
  ∧ ¬ (∃ u, d !! "id"
            = Some (Py.VStr (@Py.uuid_str Fixtures.canonical_formatters u))).
Proof.
  cbv zeta.
  assert (Hid : @Instances.get_sync_data Fixtures.canonical_formatters
                  Fixtures.unsaved_farm !! "id" = Some (Py.VStr "None"))
    by (vm_compute; reflexivity).
  split; [reflexivity |]. split; [exact Hid |].
  intros (u & Hu). rewrite Hid in Hu. injection Hu as Hu.
  by apply (canonical_uuid_str_not_None u).
Qed.

(** The UUID 12345678-1234-5678-1234-567812345678 of the documentation
    of [uuid], from its integer. *)
Example canonical_uuid_str_example :
  Py.canonical_uuid_str 0x12345678123456781234567812345678%N
  = "12345678-1234-5678-1234-567812345678"%string.
Proof. vm_compute. reflexivity. Qed.

(* ===================================================================== *)
(** * Further worked examples *)
(* ===================================================================== *)

(** Rice in Senegal, and cassava anywhere. *)
Lemma get_local_varieties_table_witness :
  (("rice", "SN") : string * string)
  ∈ [ ("maize", "NG"); ("maize", "KE"); ("maize", "GH");
      ("rice", "NG"); ("rice", "GH"); ("rice", "SN") ]
  ∧ AgriculturalData.get_local_varieties "rice" "SN" ≠ []
  ∧ AgriculturalData.get_local_varieties "cassava" "NG" = [].
Proof.
  assert (Hin : (("rice", "SN") : string * string)
                ∈ [ ("maize", "NG"); ("maize", "KE"); ("maize", "GH");
                    ("rice", "NG"); ("rice", "GH"); ("rice", "SN") ])
    by (do 5 apply list_elem_of_further; apply list_elem_of_here).
  split; [exact Hin |]. split; [| reflexivity].
  exact (proj2 (proj1 (get_local_varieties_table "rice" "SN")) Hin).
Defined.

(** Born on 29 February 2000: on 28 February 2023 the twenty-third
    birthday has not come. *)
Lemma age_counts_birthdays_witness :
  let born := UserAge.mkYmd 2000 2 29 in
  let today := UserAge.mkYmd 2023 2 28 in
  UserAge.age today (Some born) = Some 22
  ∧ UserAge.date_le (UserAge.anniversary born 22) today
  ∧ UserAge.date_lt today (UserAge.anniversary born 23).
Proof.
  intros born today.
  destruct (age_counts_birthdays today born) as (n & Hn & Hle & Hlt & _).
  assert (n = 22) as -> by (vm_compute in Hn; congruence).
  split; [exact Hn |]. split; [exact Hle | exact Hlt].
Defined.

(** The owner's UUID becomes a string in the farm's dictionary. *)
Lemma to_dict_keys_and_values_witness :
  "owner_id"%string ∈ (Shared.table_columns Fixtures.sample_farm).*1
  ∧ is_Some (@Shared.to_dict Fixtures.decimal_formatters Fixtures.sample_farm
               !! "owner_id").
Proof.
  assert (Hin : "owner_id"%string ∈ (Shared.table_columns Fixtures.sample_farm).*1).
  { apply list_elem_of_fmap. exists ("owner_id"%string, Py.VUuid 9%N).
    split; [reflexivity |]. unfold Shared.table_columns.
    apply elem_of_app. right. apply elem_of_map_to_list. vm_compute. reflexivity. }
  split; [exact Hin |].
  exact (proj2 (proj1 (@to_dict_keys_and_values Fixtures.decimal_formatters
                         Fixtures.sample_farm "owner_id")) (or_intror Hin)).
Defined.
